(** * awsbatch: the request signer, the transport and the resource operations

  A shallow embedding of [src/api.js] of the awsbatch command-line
  client: AWS Signature Version 4 signing ([sign], [getSigningKey],
  [buildAuthHeader]), the transport ([getBatchClient], [handleApiError])
  and the resource operations built on it; and of the two routines of
  [src/index.js] that hold logic of their own, the action of [config list]
  and [printTable].

  Conventions of the embedding.
  - A JavaScript string is a Rocq [string] holding its UTF-8 encoding, which
    is what [crypto]'s [update] hashes and what [encodeURIComponent]
    escapes.  A [Buffer] is a [list Z] of bytes.
  - The platform's hash primitives (SHA-256 of FIPS 180-4, HMAC of RFC 2104)
    are written out and run inside Rocq.
  - What the process obtains from outside is an explicit environment
    ([Env]): the settings store, the clock, the URL parser and the HTTP
    client. *)

From Stdlib Require Import ZArith List String Ascii Bool Lia DecimalString.
Import ListNotations.

Set Warnings "-register-all".

Open Scope Z_scope.

(** ** Byte sequences *)

Module Bytes.

(** A [Buffer]: each element is a byte, [0 <= b < 256]. *)
Definition buffer := list Z.

Definition byte_of_ascii (c : ascii) : Z := Z.of_N (N_of_ascii c).

Definition ascii_of_byte (b : Z) : ascii := ascii_of_N (Z.to_N (b mod 256)).

(** The bytes [update(msg)] feeds to a hash when [msg] is a string. *)
Definition of_string (s : string) : buffer :=
  List.map byte_of_ascii (list_ascii_of_string s).

Definition hex_digit (n : Z) : ascii :=
  if n <? 10 then ascii_of_byte (48 + n) else ascii_of_byte (87 + n).

(** [digest('hex')] / [toString('hex')]: two lower-case digits per byte. *)
Fixpoint hex (b : buffer) : string :=
  match b with
  | [] => EmptyString
  | x :: r => String (hex_digit (Z.shiftr x 4)) (String (hex_digit (Z.land x 15)) (hex r))
  end.

(** Big-endian encoding of [v] on [n] bytes. *)
Fixpoint be (n : nat) (v : Z) : buffer :=
  match n with
  | O => []
  | S k => Z.land (Z.shiftr v (8 * Z.of_nat k)) 255 :: be k v
  end.

End Bytes.

(** ** SHA-256 (the primitive behind [crypto.createHash('sha256')]) *)

Module SHA256.
Import Bytes.

Definition w32 (x : Z) : Z := Z.land x 0xFFFFFFFF.
Definition add32 (x y : Z) : Z := w32 (x + y).
Definition rotr (n x : Z) : Z :=
  w32 (Z.lor (Z.shiftr x n) (Z.shiftl x (32 - n))).
Definition shr (n x : Z) : Z := Z.shiftr x n.

Definition Ch (x y z : Z) : Z :=
  Z.lxor (Z.land x y) (Z.land (Z.lxor x 0xFFFFFFFF) z).
Definition Maj (x y z : Z) : Z :=
  Z.lxor (Z.lxor (Z.land x y) (Z.land x z)) (Z.land y z).
Definition Sigma0 (x : Z) : Z := Z.lxor (Z.lxor (rotr 2 x) (rotr 13 x)) (rotr 22 x).
Definition Sigma1 (x : Z) : Z := Z.lxor (Z.lxor (rotr 6 x) (rotr 11 x)) (rotr 25 x).
Definition sigma0 (x : Z) : Z := Z.lxor (Z.lxor (rotr 7 x) (rotr 18 x)) (shr 3 x).
Definition sigma1 (x : Z) : Z := Z.lxor (Z.lxor (rotr 17 x) (rotr 19 x)) (shr 10 x).

(** The round constants and the initial hash value are not tabulated but
    derived as FIPS 180-4 defines them: the first 32 bits of the fractional
    parts of the cube roots of the first 64 primes, and of the square roots
    of the first 8. *)
Definition is_prime (n : Z) : bool :=
  (1 <? n) && List.forallb (fun d => negb (n mod Z.of_nat d =? 0))
                (List.seq 2 (Z.to_nat n - 2)).

Definition primes : list Z :=
  List.filter is_prime (List.map Z.of_nat (List.seq 2 310)).

(** The integer cube root of [n], found bit by bit from bit [bits - 1] down. *)
Fixpoint cube_root (bits : nat) (n r : Z) : Z :=
  match bits with
  | O => r
  | S k =>
      let r' := r + 2 ^ Z.of_nat k in
      cube_root k n (if r' * r' * r' <=? n then r' else r)
  end.

Definition K : list Z :=
  Eval vm_compute in
    List.map (fun p => w32 (cube_root 36 (p * 2 ^ 96) 0)) (List.firstn 64 primes).

Definition H0 : list Z :=
  Eval vm_compute in
    List.map (fun p => w32 (Z.sqrt (p * 2 ^ 64))) (List.firstn 8 primes).

(** Padding: a [0x80] byte, zeros up to 56 modulo 64, then the bit length
    on eight bytes. *)
Definition pad (m : buffer) : buffer :=
  let len := Z.of_nat (List.length m) in
  let zeros := Z.to_nat ((55 - len) mod 64) in
  m ++ 0x80 :: List.repeat 0 zeros ++ be 8 (8 * len).

(** Big-endian 32-bit words of a byte sequence (a trailing partial word is
    dropped; [pad] never leaves one). *)
Fixpoint words (b : buffer) : list Z :=
  match b with
  | b0 :: b1 :: b2 :: b3 :: r =>
      (Z.shiftl b0 24 + Z.shiftl b1 16 + Z.shiftl b2 8 + b3) :: words r
  | _ => []
  end.

(** The message schedule, newest word first: [rev_w] holds
    [W(t-1); W(t-2); ...]. *)
Fixpoint schedule (n : nat) (rev_w : list Z) : list Z :=
  match n with
  | O => rev_w
  | S k =>
      let w := add32 (add32 (sigma1 (nth 1 rev_w 0)) (nth 6 rev_w 0))
                     (add32 (sigma0 (nth 14 rev_w 0)) (nth 15 rev_w 0)) in
      schedule k (w :: rev_w)
  end.

Record regs := Regs { ra : Z; rb : Z; rc : Z; rd : Z; re : Z; rf : Z; rg : Z; rh : Z }.

Definition round (s : regs) (kw : Z * Z) : regs :=
  let '(k, w) := kw in
  let t1 := add32 (add32 (add32 (rh s) (Sigma1 (re s))) (add32 (Ch (re s) (rf s) (rg s)) k)) w in
  let t2 := add32 (Sigma0 (ra s)) (Maj (ra s) (rb s) (rc s)) in
  Regs (add32 t1 t2) (ra s) (rb s) (rc s) (add32 (rd s) t1) (re s) (rf s) (rg s).

Definition regs_of (h : list Z) : regs :=
  Regs (nth 0 h 0) (nth 1 h 0) (nth 2 h 0) (nth 3 h 0)
       (nth 4 h 0) (nth 5 h 0) (nth 6 h 0) (nth 7 h 0).

Definition list_of (s : regs) : list Z :=
  [ ra s; rb s; rc s; rd s; re s; rf s; rg s; rh s ].

(** One 16-word block folded into the chaining value [h]. *)
Definition compress (h : list Z) (block : list Z) : list Z :=
  let w := List.rev (schedule 48 (List.rev block)) in
  let s := List.fold_left round (List.combine K w) (regs_of h) in
  List.map (fun p => add32 (fst p) (snd p)) (List.combine h (list_of s)).

(** All blocks in turn; [n] bounds the number of blocks. *)
Fixpoint blocks (n : nat) (h : list Z) (ws : list Z) : list Z :=
  match n with
  | O => h
  | S k =>
      match ws with
      | [] => h
      | _ => blocks k (compress h (List.firstn 16 ws)) (List.skipn 16 ws)
      end
  end.

(** [crypto.createHash('sha256').update(m).digest()]. *)
Definition digest (m : buffer) : buffer :=
  let ws := words (pad m) in
  List.concat (List.map (be 4) (blocks (List.length ws) H0 ws)).

(** [crypto.createHash('sha256').update(s).digest('hex')]. *)
Definition hexdigest (s : string) : string := hex (digest (of_string s)).

End SHA256.

(** ** HMAC-SHA256 (the primitive behind [crypto.createHmac('sha256', key)]) *)

Module HMAC.
Import Bytes.

Definition block_size : nat := 64.

(** Keys longer than a block are hashed first; the key is then padded
    with zeros to the block size. *)
Definition block_key (key : buffer) : buffer :=
  let k := if Nat.ltb block_size (List.length key) then SHA256.digest key else key in
  k ++ List.repeat 0 (block_size - List.length k).

Definition hmac (key msg : buffer) : buffer :=
  let k := block_key key in
  let ipad := List.map (Z.lxor 0x36) k in
  let opad := List.map (Z.lxor 0x5c) k in
  SHA256.digest (opad ++ SHA256.digest (ipad ++ msg)).

End HMAC.

Open Scope string_scope.

(** ** The JavaScript values and built-ins the module relies on *)

Module JS.

(** *** Strings *)

Definition is_digit (c : ascii) : bool :=
  let n := Bytes.byte_of_ascii c in ((48 <=? n) && (n <=? 57))%Z.

Definition is_lower (c : ascii) : bool :=
  let n := Bytes.byte_of_ascii c in ((97 <=? n) && (n <=? 122))%Z.

Definition is_upper (c : ascii) : bool :=
  let n := Bytes.byte_of_ascii c in ((65 <=? n) && (n <=? 90))%Z.

Definition upper_char (c : ascii) : ascii :=
  if is_lower c then Bytes.ascii_of_byte (Bytes.byte_of_ascii c - 32) else c.

Definition lower_char (c : ascii) : ascii :=
  if is_upper c then Bytes.ascii_of_byte (Bytes.byte_of_ascii c + 32) else c.

Fixpoint map_chars (f : ascii -> ascii) (s : string) : string :=
  match s with
  | EmptyString => EmptyString
  | String c r => String (f c) (map_chars f r)
  end.

(** [s.toUpperCase()] on the ASCII letters; bytes of non-ASCII characters
    are left as they are (an HTTP method is an ASCII token). *)
Definition toUpperCase (s : string) : string := map_chars upper_char s.

Definition toLowerCase (s : string) : string := map_chars lower_char s.

(** [s.slice(from, to)] for [0 <= from <= to]. *)
Definition slice (from to : nat) (s : string) : string :=
  String.substring from (to - from) s.

(** [s.slice(from)]. *)
Definition slice_from (from : nat) (s : string) : string :=
  String.substring from (String.length s - from) s.

(** [parts.join(sep)] on an array of strings. *)
Fixpoint join (sep : string) (parts : list string) : string :=
  match parts with
  | [] => ""
  | [p] => p
  | p :: r => p ++ sep ++ join sep r
  end.

(** Decimal text of an integer number. *)
Definition decimal (n : Z) : string :=
  DecimalString.NilZero.string_of_int (Z.to_int n).

Definition nl : string := String (Ascii.ascii_of_nat 10) "".

(** *** Values *)

(** JSON-shaped values.  An object keeps its properties in insertion
    order, which is the order [JSON.stringify] writes them in when no name
    is an array index; property names are distinct.  Numbers
    are the integers that JavaScript prints digit by digit; fractions, [NaN]
    and the infinities are left out. *)
Inductive value :=
| JUndefined
| JNull
| JBool (b : bool)
| JNum (n : Z)
| JStr (s : string)
| JArr (items : list value)
| JObj (props : list (string * value)).

(** [ToBoolean]. *)
Definition truthy (v : value) : bool :=
  match v with
  | JUndefined | JNull => false
  | JBool b => b
  | JNum n => negb (n =? 0)%Z
  | JStr s => negb (String.eqb s "")
  | JArr _ | JObj _ => true
  end.

(** [a || b]. *)
Definition or_else (a b : value) : value := if truthy a then a else b.

Fixpoint lookup (k : string) (props : list (string * value)) : value :=
  match props with
  | [] => JUndefined
  | (k', v) :: r => if String.eqb k k' then v else lookup k r
  end.

(** [v?.k] for a property name [k] that no prototype defines (the envelope
    and message fields read by this module): only an object can hold it. *)
Definition get (v : value) (k : string) : value :=
  match v with
  | JObj props => lookup k props
  | _ => JUndefined
  end.

(** [`${v}`] and [String(v)]. *)
Fixpoint to_string (v : value) : string :=
  match v with
  | JUndefined => "undefined"
  | JNull => "null"
  | JBool true => "true"
  | JBool false => "false"
  | JNum n => decimal n
  | JStr s => s
  | JArr items =>
      join "," (List.map (fun x => match x with
                                   | JUndefined | JNull => ""
                                   | _ => to_string x
                                   end) items)
  | JObj _ => "[object Object]"
  end.

(** *** [JSON.stringify] *)

Definition escape_char (c : ascii) : string :=
  let n := Bytes.byte_of_ascii c in
  if (n =? 34)%Z then "\" ++ String c ""
  else if (n =? 92)%Z then "\\"
  else if (n =? 8)%Z then "\b"
  else if (n =? 9)%Z then "\t"
  else if (n =? 10)%Z then "\n"
  else if (n =? 12)%Z then "\f"
  else if (n =? 13)%Z then "\r"
  else if (n <? 32)%Z then "\u00" ++ Bytes.hex [n]
  else String c "".

Fixpoint escape (s : string) : string :=
  match s with
  | EmptyString => ""
  | String c r => escape_char c ++ escape r
  end.

Definition dquote : string := String (Ascii.ascii_of_nat 34) "".

Definition quote (s : string) : string := dquote ++ escape s ++ dquote.

(** [JSON.stringify(v)]; [None] is [undefined].  A property whose value is
    [undefined] is left out; an [undefined] array item is written [null]. *)
Fixpoint JSON_stringify (v : value) : option string :=
  match v with
  | JUndefined => None
  | JNull => Some "null"
  | JBool true => Some "true"
  | JBool false => Some "false"
  | JNum n => Some (decimal n)
  | JStr s => Some (quote s)
  | JArr items =>
      Some ("[" ++ join "," (List.map (fun x => match JSON_stringify x with
                                                | Some t => t
                                                | None => "null"
                                                end) items) ++ "]")
  | JObj props =>
      Some ("{" ++ join ","
              ((fix members (ps : list (string * value)) : list string :=
                  match ps with
                  | [] => []
                  | (k, x) :: r =>
                      match JSON_stringify x with
                      | Some t => (quote k ++ ":" ++ t) :: members r
                      | None => members r
                      end
                  end) props) ++ "}")
  end.

(** *** [encodeURIComponent] *)

Definition unreserved (c : ascii) : bool :=
  is_digit c || is_lower c || is_upper c
  || List.existsb (Ascii.eqb c) (list_ascii_of_string "-_.!~*'()").

Definition upper_hex (n : Z) : string := toUpperCase (Bytes.hex [n]).

Fixpoint encodeURIComponent (s : string) : string :=
  match s with
  | EmptyString => ""
  | String c r =>
      (if unreserved c then String c "" else "%" ++ upper_hex (Bytes.byte_of_ascii c))
      ++ encodeURIComponent r
  end.

(** *** [Date.prototype.toISOString]

    A [Date] is its time value: milliseconds since 1970-01-01T00:00:00Z. *)

Definition msPerDay : Z := 86400000.

Definition Day (t : Z) : Z := (t / msPerDay)%Z.

Definition TimeWithinDay (t : Z) : Z := (t mod msPerDay)%Z.

(** The proleptic Gregorian date (year, month 1-12, day 1-31) of a day
    number counted from 1970-01-01, by 400-year eras starting on March 1. *)
Definition civil (day : Z) : Z * Z * Z :=
  (let z := day + 719468 in
   let era := z / 146097 in
   let doe := z mod 146097 in
   let yoe := (doe - doe / 1460 + doe / 36524 - doe / 146096) / 365 in
   let doy := doe - (365 * yoe + yoe / 4 - yoe / 100) in
   let mp := (5 * doy + 2) / 153 in
   let d := doy - (153 * mp + 2) / 5 + 1 in
   let m := if mp <? 10 then mp + 3 else mp - 9 in
   let y := yoe + era * 400 + (if m <=? 2 then 1 else 0) in
   (y, m, d))%Z.

Definition YearFromTime (t : Z) : Z := fst (fst (civil (Day t))).
Definition MonthFromTime (t : Z) : Z := snd (fst (civil (Day t))).
Definition DateFromTime (t : Z) : Z := snd (civil (Day t)).
Definition HourFromTime (t : Z) : Z := (TimeWithinDay t / 3600000)%Z.
Definition MinFromTime (t : Z) : Z := ((TimeWithinDay t / 60000) mod 60)%Z.
Definition SecFromTime (t : Z) : Z := ((TimeWithinDay t / 1000) mod 60)%Z.
Definition msFromTime (t : Z) : Z := (TimeWithinDay t mod 1000)%Z.

Definition digit (n : Z) : ascii := Bytes.ascii_of_byte (48 + n mod 10).

(** The [w] low decimal digits of [n], zero-padded. *)
Fixpoint pad (w : nat) (n : Z) : string :=
  match w with
  | O => ""
  | S k => pad k (n / 10) ++ String (digit n) ""
  end.

(** Four digits for the years 0 to 9999, a sign and six digits otherwise. *)
Definition year_string (y : Z) : string :=
  if ((0 <=? y) && (y <=? 9999))%Z then pad 4 y
  else (if (y <? 0)%Z then "-" else "+") ++ pad 6 (Z.abs y).

Definition toISOString (t : Z) : string :=
  year_string (YearFromTime t) ++ "-" ++ pad 2 (MonthFromTime t) ++ "-"
  ++ pad 2 (DateFromTime t) ++ "T" ++ pad 2 (HourFromTime t) ++ ":"
  ++ pad 2 (MinFromTime t) ++ ":" ++ pad 2 (SecFromTime t) ++ "."
  ++ pad 3 (msFromTime t) ++ "Z".

Definition three_digits (s : string) : bool :=
  match s with
  | String a (String b (String c _)) => is_digit a && is_digit b && is_digit c
  | _ => false
  end.

(** [s.replace(/[:-]|\.\d{3}/g, '')], scanning left to right; [skip] is
    the number of characters of the current match still to drop. *)
Fixpoint strip (skip : nat) (s : string) : string :=
  match s with
  | EmptyString => ""
  | String c r =>
      match skip with
      | S k => strip k r
      | O =>
          if Ascii.eqb c ":" || Ascii.eqb c "-" then strip 0 r
          else if Ascii.eqb c "." && three_digits r then strip 3 r
          else String c (strip 0 r)
      end
  end.

End JS.

(** ** The environment of the process *)

(** The components of a parsed URL that the signer reads.  [query] is the
    URL record's query ([None] when the URL has no [?]). *)
Record URL := mkURL {
  host : string;
  pathname : string;
  query : option string
}.

(** The [search] getter: empty when the query is null or empty, else the
    query behind a question mark. *)
Definition search (u : URL) : string :=
  match query u with
  | Some q => if String.eqb q "" then "" else "?" ++ q
  | None => ""
  end.

(** What axios is called with. *)
Record AxiosRequest := mkAxiosRequest {
  ax_method : string;
  ax_url : string;
  ax_data : JS.value;
  ax_headers : list (string * string)
}.

(** The error axios rejects with: [response] (status and data) is set when
    the server answered; [request_sent] tells whether [error.request] is
    set, that is, whether a request was made at all. *)
Record AxiosError := mkAxiosError {
  response : option (Z * JS.value);
  request_sent : bool
}.

(** How an axios call ends: resolved with [response.data] (a 2xx status), or
    rejected. *)
Inductive AxiosOutcome :=
| Resolved (data : JS.value)
| Failed (error : AxiosError).

(** What the process obtains from outside: the settings store ([getConfig]
    of [config.js], [None] for a key that is not set), the clock (the time
    value of the n-th [new Date()]), the URL parser ([new URL(s)], [None]
    when it throws) and the HTTP client. *)
Record Env := mkEnv {
  getConfig : string -> option string;
  clock : nat -> Z;
  parseURL : string -> option URL;
  axios : AxiosRequest -> AxiosOutcome
}.

(** ** Exceptions and the state of the clock *)

(** What can be thrown: [new Error(message)], the [TypeError] of
    [new URL], or the error axios rejected with, thrown again. *)
Inductive thrown :=
| Error (message : string)
| TypeError (message : string)
| Raised (error : AxiosError).

Inductive outcome (A : Type) :=
| Returned (a : A)
| Thrown (e : thrown).

Arguments Returned {A} a.
Arguments Thrown {A} e.

(** A computation reads the clock some number of times; the state is the
    number of readings made so far. *)
Definition M (A : Type) : Type := nat -> outcome A * nat.

Definition ret {A} (a : A) : M A := fun n => (Returned a, n).

Definition throw {A} (e : thrown) : M A := fun n => (Thrown e, n).

Definition bind {A B} (m : M A) (k : A -> M B) : M B :=
  fun n =>
    match m n with
    | (Returned a, n') => k a n'
    | (Thrown e, n') => (Thrown e, n')
    end.

Notation "x <- m ;; k" := (bind m (fun x => k))
  (at level 61, m at next level, right associativity).

(** [new Date()]. *)
Definition new_Date (env : Env) : M Z := fun n => (Returned (clock env n), S n).

(** [new URL(s)]. *)
Definition new_URL (env : Env) (s : string) : M URL :=
  match parseURL env s with
  | Some u => ret u
  | None => throw (TypeError "Invalid URL")
  end.

(** [`${x}`] and ['...' + x] for a string that may be [undefined]. *)
Definition str (x : option string) : string :=
  match x with
  | Some s => s
  | None => "undefined"
  end.

(** [x || d] for a string that may be [undefined]. *)
Definition str_or (x : option string) (d : string) : string :=
  match x with
  | Some s => if String.eqb s "" then d else s
  | None => d
  end.

(** ** AWS Signature Version 4 signing helper *)

(** [crypto.createHmac('sha256', key).update(msg).digest()]. *)
Definition sign (key : Bytes.buffer) (msg : string) : Bytes.buffer :=
  HMAC.hmac key (Bytes.of_string msg).

Definition getSigningKey (secretKey : option string) (dateStamp regionName serviceName : string)
  : Bytes.buffer :=
  let kDate := sign (Bytes.of_string ("AWS4" ++ str secretKey)) dateStamp in
  let kRegion := sign kDate regionName in
  let kService := sign kRegion serviceName in
  sign kService "aws4_request".

(** The argument object of [buildAuthHeader]. *)
Record AuthArgs := mkAuthArgs {
  method : string;
  url : string;
  body : option string;
  service : string;
  region : string;
  accessKeyId : option string;
  secretAccessKey : option string
}.

(** The constants [buildAuthHeader] binds, in the order it binds them. *)
Record Signing := mkSigning {
  queryString : string;
  amzDate : string;
  dateStamp : string;
  payloadHash : string;
  canonicalHeaders : string;
  signedHeaders : string;
  canonicalRequest : string;
  credentialScope : string;
  stringToSign : string;
  signingKey : Bytes.buffer;
  signature : string;
  authorization : string
}.

(** The body of [buildAuthHeader] behind [new URL(url)] and [new Date()]. *)
Definition signing (a : AuthArgs) (parsedUrl : URL) (now : Z) : Signing :=
  let host := host parsedUrl in
  let path := pathname parsedUrl in
  let queryString :=
    if String.eqb (search parsedUrl) "" then "" else JS.slice_from 1 (search parsedUrl) in
  let amzDate := JS.slice 0 15 (JS.strip 0 (JS.toISOString now)) ++ "Z" in
  let dateStamp := JS.slice 0 8 amzDate in
  let payloadHash := SHA256.hexdigest (str_or (body a) "") in
  let canonicalHeaders := "host:" ++ host ++ JS.nl ++ "x-amz-date:" ++ amzDate ++ JS.nl in
  let signedHeaders := "host;x-amz-date" in
  let canonicalRequest :=
    JS.join JS.nl
      [ JS.toUpperCase (method a); path; queryString; canonicalHeaders; signedHeaders;
        payloadHash ] in
  let credentialScope :=
    dateStamp ++ "/" ++ region a ++ "/" ++ service a ++ "/aws4_request" in
  let stringToSign :=
    JS.join JS.nl
      [ "AWS4-HMAC-SHA256"; amzDate; credentialScope; SHA256.hexdigest canonicalRequest ] in
  let signingKey := getSigningKey (secretAccessKey a) dateStamp (region a) (service a) in
  let signature := Bytes.hex (HMAC.hmac signingKey (Bytes.of_string stringToSign)) in
  let authorization :=
    "AWS4-HMAC-SHA256 Credential=" ++ str (accessKeyId a) ++ "/" ++ credentialScope
    ++ ", SignedHeaders=" ++ signedHeaders ++ ", Signature=" ++ signature in
  mkSigning queryString amzDate dateStamp payloadHash canonicalHeaders signedHeaders
            canonicalRequest credentialScope stringToSign signingKey signature authorization.

(** What [buildAuthHeader] returns: [{ authorization, amzDate }]. *)
Record AuthHeader := mkAuthHeader {
  hdr_authorization : string;
  hdr_amzDate : string
}.

Definition buildAuthHeader (env : Env) (a : AuthArgs) : M AuthHeader :=
  parsedUrl <- new_URL env (url a) ;;
  now <- new_Date env ;;
  let s := signing a parsedUrl now in
  ret (mkAuthHeader (authorization s) (amzDate s)).

(** ** The transport *)

(** [handleApiError(error)]: every branch throws. *)
Definition handleApiError (error : AxiosError) : M JS.value :=
  match response error with
  | Some (status, data) =>
      if (status =? 401)%Z || (status =? 403)%Z then
        throw (Error "AWS authentication failed. Check your accessKeyId and secretAccessKey.")
      else if (status =? 404)%Z then
        throw (Error "Resource not found.")
      else if (status =? 429)%Z then
        throw (Error "Rate limit exceeded. Please wait before retrying.")
      else
        let message :=
          JS.or_else (JS.get data "message")
            (JS.or_else (JS.get data "Message")
               (JS.or_else (JS.get data "error")
                  (match JS.JSON_stringify data with
                   | Some t => JS.JStr t
                   | None => JS.JUndefined
                   end))) in
        throw (Error ("AWS Batch Error (" ++ JS.decimal status ++ "): " ++ JS.to_string message))
  | None =>
      if request_sent error then
        throw (Error "No response from AWS Batch API. Check your internet connection and region.")
      else
        throw (Raised error)
  end.

(** The constants [getBatchClient] closes over. *)
Record Client := mkClient {
  c_accessKeyId : option string;
  c_secretAccessKey : option string;
  c_region : string;
  c_baseURL : string
}.

Definition getBatchClient (env : Env) : Client :=
  let accessKeyId := getConfig env "accessKeyId" in
  let secretAccessKey := getConfig env "secretAccessKey" in
  let region := str_or (getConfig env "region") "us-east-1" in
  let baseURL := "https://batch." ++ region ++ ".amazonaws.com" in
  mkClient accessKeyId secretAccessKey region baseURL.

(** The wire body the signer hashes: [data ? JSON.stringify(data) : ''].
    [None] is [undefined]. *)
Definition wire_body (data : JS.value) : option string :=
  if JS.truthy data then JS.JSON_stringify data else Some "".

(** The object [request] passes to [axios]. *)
Definition axios_config (method url : string) (data : JS.value) (auth : AuthHeader)
  : AxiosRequest :=
  mkAxiosRequest method url (JS.or_else data JS.JUndefined)
    [ ("Authorization", hdr_authorization auth);
      ("X-Amz-Date", hdr_amzDate auth);
      ("Content-Type", "application/json");
      ("Accept", "application/json") ].

(** [client.request(method, path, data = null)]. *)
Definition request (env : Env) (c : Client) (method path : string) (data : JS.value)
  : M JS.value :=
  let data := match data with JS.JUndefined => JS.JNull | _ => data end in
  let url := c_baseURL c ++ path in
  let body := wire_body data in
  auth <- buildAuthHeader env
            (mkAuthArgs method url body "batch" (c_region c)
                        (c_accessKeyId c) (c_secretAccessKey c)) ;;
  match axios env (axios_config method url data auth) with
  | Resolved d => ret d
  | Failed error => _ <- handleApiError error ;; ret JS.JUndefined
  end.

(** ** Jobs *)

(** [...(v && { k: v })] inside an object literal. *)
Definition spread_if (k : string) (v : JS.value) : list (string * JS.value) :=
  if JS.truthy v then [(k, v)] else [].

Record SubmitJobArgs := mkSubmitJobArgs {
  sj_jobName : JS.value;
  sj_jobQueue : JS.value;
  sj_jobDefinition : JS.value;
  sj_parameters : JS.value;
  sj_containerOverrides : JS.value
}.

Definition submitJob_body (a : SubmitJobArgs) : JS.value :=
  JS.JObj ([ ("jobName", sj_jobName a);
             ("jobQueue", sj_jobQueue a);
             ("jobDefinition", sj_jobDefinition a) ]
           ++ spread_if "parameters" (sj_parameters a)
           ++ spread_if "containerOverrides" (sj_containerOverrides a))%list.

Definition submitJob (env : Env) (a : SubmitJobArgs) : M JS.value :=
  let client := getBatchClient env in
  let body := submitJob_body a in
  data <- request env client "POST" "/v1/submitjob" body ;;
  ret data.


(** [if (v) body.k = v;] on an object that does not hold [k] yet. *)
Definition assign_if (k : string) (v : JS.value) (props : list (string * JS.value))
  : list (string * JS.value) :=
  if JS.truthy v then (props ++ [(k, v)])%list else props.

Record ListJobsArgs := mkListJobsArgs {
  lj_jobQueue : JS.value;
  lj_jobStatus : JS.value;
  lj_maxResults : JS.value
}.

Definition listJobs (env : Env) (a : ListJobsArgs) : M JS.value :=
  let maxResults := match lj_maxResults a with JS.JUndefined => JS.JNum 50 | v => v end in
  let client := getBatchClient env in
  let body :=
    assign_if "maxResults" maxResults
      (assign_if "jobStatus" (lj_jobStatus a)
         (assign_if "jobQueue" (lj_jobQueue a) [])) in
  data <- request env client "POST" "/v1/listjobs" (JS.JObj body) ;;
  ret (JS.or_else (JS.get data "jobSummaryList") (JS.JArr [])).

Definition terminateJob (env : Env) (jobId reason : JS.value) : M JS.value :=
  let client := getBatchClient env in
  data <- request env client "POST" "/v1/terminatejob"
            (JS.JObj [ ("jobId", jobId);
                       ("reason", JS.or_else reason (JS.JStr "Terminated via CLI")) ]) ;;
  ret data.

(** ** Job queues *)

Definition listQueues (env : Env) : M JS.value :=
  let client := getBatchClient env in
  data <- request env client "GET" "/v1/jobqueues" JS.JUndefined ;;
  ret (JS.or_else (JS.get data "jobQueues") (JS.JArr [])).

(** ** Job definitions *)

Definition listDefinitions (env : Env) (definitionName status : option string) : M JS.value :=
  let client := getBatchClient env in
  let path := "/v1/jobdefinitions" in
  let params := [] in
  let params :=
    if String.eqb (str_or definitionName "") "" then params
    else List.app params ["jobDefinitionName=" ++ JS.encodeURIComponent (str definitionName)] in
  let params :=
    if String.eqb (str_or status "") "" then params
    else List.app params ["status=" ++ JS.encodeURIComponent (str status)] in
  let path := match params with [] => path | _ => path ++ "?" ++ JS.join "&" params end in
  data <- request env client "GET" path JS.JUndefined ;;
  ret (JS.or_else (JS.get data "jobDefinitions") (JS.JArr [])).

Definition describeDefinitions_path (definitionNames : list string) : string :=
  "/v1/jobdefinitions?jobDefinitionName="
  ++ JS.encodeURIComponent (str (List.nth_error definitionNames 0)).

Definition describeDefinitions (env : Env) (definitionNames : list string) : M JS.value :=
  let client := getBatchClient env in
  let path := describeDefinitions_path definitionNames in
  data <- request env client "GET" path JS.JUndefined ;;
  ret (JS.or_else (JS.get data "jobDefinitions") (JS.JArr [])).

(** ** An instance of the environment *)

Fixpoint span (stop : ascii -> bool) (s : string) : string * string :=
  match s with
  | EmptyString => ("", "")
  | String c r =>
      if stop c then ("", s)
      else let '(a, b) := span stop r in (String c a, b)
  end.

Definition one_of (set : string) (c : ascii) : bool :=
  List.existsb (Ascii.eqb c) (list_ascii_of_string set).

(** A reading of [new URL] on the plain [https://host/path?query] URLs the
    transport builds: the host is lower-cased, an empty path is [/], the
    fragment is dropped.  Percent-encoding, dot segments, credentials and
    ports are left to the real parser; the theorems below are stated for any
    parser and take this one as their instance. *)
Definition parse_https (s : string) : option URL :=
  if String.prefix "https://" s then
    let rest := JS.slice_from 8 s in
    let '(authority, rest) := span (one_of "/?#") rest in
    let '(path, rest) := span (one_of "?#") rest in
    let '(q, _) := span (one_of "#") rest in
    if String.eqb authority "" then None
    else Some (mkURL (JS.toLowerCase authority)
                     (if String.eqb path "" then "/" else path)
                     (match q with
                      | String _ q' => Some q'
                      | EmptyString => None
                      end))
  else None.

(** An environment whose server answers every request with [reply]. *)
Definition env_with (cfg : string -> option string) (now : Z) (reply : AxiosOutcome) : Env :=
  mkEnv cfg (fun _ => now) parse_https (fun _ => reply).

Definition example_config (k : string) : option string :=
  if String.eqb k "accessKeyId" then Some "AKIDEXAMPLE"
  else if String.eqb k "secretAccessKey" then Some "wJalrXUtnFEMI/K7MDENG/bPxRfiCYEXAMPLEKEY"
  else if String.eqb k "region" then Some "us-east-1"
  else None.

(** ** The specification's vocabulary *)

(** The derivation chain as section 4.2 of the specification words it:
    four keyed hashes, each output the key of the next. *)
Definition spec_derive (secret dateStamp region service : string) : Bytes.buffer :=
  let kDate := HMAC.hmac (Bytes.of_string ("AWS4" ++ secret)) (Bytes.of_string dateStamp) in
  let kRegion := HMAC.hmac kDate (Bytes.of_string region) in
  let kService := HMAC.hmac kRegion (Bytes.of_string service) in
  let kSigning := HMAC.hmac kService (Bytes.of_string "aws4_request") in
  kSigning.

(** The error taxonomy of section 7, as the values the module throws. *)
Definition AuthenticationFailed : thrown :=
  Error "AWS authentication failed. Check your accessKeyId and secretAccessKey.".

Definition NotFound : thrown := Error "Resource not found.".

Definition RateLimited : thrown := Error "Rate limit exceeded. Please wait before retrying.".

Definition ApiError (status : Z) (message : string) : thrown :=
  Error ("AWS Batch Error (" ++ JS.decimal status ++ "): " ++ message).

Definition NetworkError : thrown :=
  Error "No response from AWS Batch API. Check your internet connection and region.".

(** The message an [ApiError] carries: the first truthy one of the reply's
    [message], [Message] and [error] fields, else the reply as JSON text. *)
Definition server_message (data : JS.value) : string :=
  if JS.truthy (JS.get data "message") then JS.to_string (JS.get data "message")
  else if JS.truthy (JS.get data "Message") then JS.to_string (JS.get data "Message")
  else if JS.truthy (JS.get data "error") then JS.to_string (JS.get data "error")
  else match JS.JSON_stringify data with
       | Some t => t
       | None => "undefined"
       end.

Definition is_byte (b : Z) : Prop := (0 <= b < 256)%Z.

Definition is_lower_hex (c : ascii) : bool :=
  JS.is_digit c || one_of "abcdef" c.

(** [p] holds of [0], ..., [k - 1]. *)
Fixpoint all_below (p : Z -> bool) (k : nat) : bool :=
  match k with
  | O => true
  | S j => p (Z.of_nat j) && all_below p j
  end.

Fixpoint all_chars (p : ascii -> bool) (s : string) : bool :=
  match s with
  | EmptyString => true
  | String c r => p c && all_chars p r
  end.

(** The parser hands out a lower-case host for every [https] URL it
    accepts: the URL standard maps the host of a URL with a special scheme
    to lower case, and keeps the host of any other URL as it is written. *)
Definition lowercases_host (env : Env) : Prop :=
  forall s u,
    String.prefix "https://" s = true -> parseURL env s = Some u ->
    host u = JS.toLowerCase (host u).

(** [YYYYMMDD] and [HHMMSS] of an instant, in UTC. *)
Definition compact_date (t : Z) : string :=
  JS.pad 4 (JS.YearFromTime t) ++ JS.pad 2 (JS.MonthFromTime t) ++ JS.pad 2 (JS.DateFromTime t).

Definition compact_time (t : Z) : string :=
  JS.pad 2 (JS.HourFromTime t) ++ JS.pad 2 (JS.MinFromTime t) ++ JS.pad 2 (JS.SecFromTime t).

(** 10000-01-01T00:00:00.000Z, the first instant whose year has five digits. *)
Definition year_10000 : Z := 253402300800000.

(** What [request] hands to axios, when the URL parses. *)
Definition sent_request (env : Env) (c : Client) (method path : string) (data : JS.value)
  (t : nat) : option AxiosRequest :=
  let data := match data with JS.JUndefined => JS.JNull | _ => data end in
  let url := c_baseURL c ++ path in
  match buildAuthHeader env
          (mkAuthArgs method url (wire_body data) "batch" (c_region c)
                      (c_accessKeyId c) (c_secretAccessKey c)) t with
  | (Returned auth, _) => Some (axios_config method url data auth)
  | (Thrown _, _) => None
  end.

Definition forbidden : AxiosError := mkAxiosError (Some (403, JS.JNull)) true.

Definition server_error : AxiosError :=
  mkAxiosError (Some (500, JS.JObj [("message", JS.JStr "boom")])) true.

Definition unreachable : AxiosError := mkAxiosError None true.

(** [field || []] on a reply. *)
Definition unwrap (field : string) (data : JS.value) : JS.value :=
  if JS.truthy (JS.get data field) then JS.get data field else JS.JArr [].

(** ** Example inputs *)

Definition example_secret : string := "wJalrXUtnFEMI/K7MDENG/bPxRfiCYEXAMPLEKEY".

(** 2015-08-30T12:36:00.000Z. *)
Definition example_instant : Z := 1440938160000.

Definition example_url : URL :=
  mkURL "batch.us-east-1.amazonaws.com" "/v1/jobqueues" (Some "jobQueues=q1").

Definition example_args : AuthArgs :=
  mkAuthArgs "get" "https://batch.US-EAST-1.amazonaws.com/v1/jobqueues?jobQueues=q1" None
             "batch" "us-east-1" (Some "AKIDEXAMPLE") (Some example_secret).

Definition example_reply : JS.value :=
  JS.JObj [("jobQueues", JS.JArr [JS.JObj [("jobQueueName", JS.JStr "q1")]])].

Definition example_env : Env :=
  env_with example_config example_instant (Resolved example_reply).


Definition my_job : SubmitJobArgs :=
  mkSubmitJobArgs (JS.JStr "my-job") (JS.JStr "my-queue") (JS.JStr "my-def")
                  JS.JUndefined JS.JUndefined.

Definition quoted (s : string) : string := JS.dquote ++ s ++ JS.dquote.

(** [{"jobName":"my-job","jobQueue":"my-queue","jobDefinition":"my-def"}]. *)
Definition my_job_text : string :=
  "{" ++ quoted "jobName" ++ ":" ++ quoted "my-job" ++ ","
  ++ quoted "jobQueue" ++ ":" ++ quoted "my-queue" ++ ","
  ++ quoted "jobDefinition" ++ ":" ++ quoted "my-def" ++ "}".

(** A server that answers every request with the data it was sent. *)
Definition echo_env : Env :=
  mkEnv example_config (fun _ => example_instant) parse_https (fun r => Resolved (ax_data r)).

(** An environment that shares with [example_env] only the URL parser and
    one reading of the clock, the sixth. *)
Definition other_env : Env :=
  mkEnv (fun _ => None) (fun n => example_instant - 5 + Z.of_nat n)%Z parse_https
        (fun _ => Failed unreachable).

(** ** The remaining operations *)

(** The body of [terminateJob]. *)
Definition terminateJob_body (jobId reason : JS.value) : JS.value :=
  JS.JObj [ ("jobId", jobId);
            ("reason", JS.or_else reason (JS.JStr "Terminated via CLI")) ].

(** The body [listJobs] builds, property by property. *)
Definition listJobs_body (a : ListJobsArgs) : list (string * JS.value) :=
  let maxResults := match lj_maxResults a with JS.JUndefined => JS.JNum 50 | v => v end in
  assign_if "maxResults" maxResults
    (assign_if "jobStatus" (lj_jobStatus a)
       (assign_if "jobQueue" (lj_jobQueue a) [])).

(** The path of [getQueue]. *)
Definition getQueue_path (queueName : string) : string :=
  "/v1/jobqueues?jobQueues=" ++ JS.encodeURIComponent queueName.

Record CreateQueueArgs := mkCreateQueueArgs {
  cq_queueName : JS.value;
  cq_state : JS.value;
  cq_priority : JS.value;
  cq_computeEnvironmentOrder : JS.value
}.

Definition createQueue_body (a : CreateQueueArgs) : JS.value :=
  JS.JObj [ ("jobQueueName", cq_queueName a);
            ("state", JS.or_else (cq_state a) (JS.JStr "ENABLED"));
            ("priority", JS.or_else (cq_priority a) (JS.JNum 1));
            ("computeEnvironmentOrder",
             JS.or_else (cq_computeEnvironmentOrder a) (JS.JArr [])) ].

Definition createQueue (env : Env) (a : CreateQueueArgs) : M JS.value :=
  let client := getBatchClient env in
  let body := createQueue_body a in
  data <- request env client "POST" "/v1/createjobqueue" body ;;
  ret data.

Record UpdateQueueArgs := mkUpdateQueueArgs {
  uq_queueName : JS.value;
  uq_state : JS.value;
  uq_priority : JS.value
}.

(** [if (priority !== undefined) body.priority = priority;]. *)
Definition assign_defined (k : string) (v : JS.value) (props : list (string * JS.value))
  : list (string * JS.value) :=
  match v with
  | JS.JUndefined => props
  | _ => (props ++ [(k, v)])%list
  end.

Definition updateQueue_body (a : UpdateQueueArgs) : list (string * JS.value) :=
  assign_defined "priority" (uq_priority a)
    (assign_if "state" (uq_state a) [("jobQueue", uq_queueName a)]).

Definition updateQueue (env : Env) (a : UpdateQueueArgs) : M JS.value :=
  let client := getBatchClient env in
  let body := updateQueue_body a in
  data <- request env client "POST" "/v1/updatejobqueue" (JS.JObj body) ;;
  ret data.

(** The path [listDefinitions] builds. *)
Definition listDefinitions_path (definitionName status : option string) : string :=
  let path := "/v1/jobdefinitions" in
  let params := [] in
  let params :=
    if String.eqb (str_or definitionName "") "" then params
    else List.app params ["jobDefinitionName=" ++ JS.encodeURIComponent (str definitionName)] in
  let params :=
    if String.eqb (str_or status "") "" then params
    else List.app params ["status=" ++ JS.encodeURIComponent (str status)] in
  match params with [] => path | _ => path ++ "?" ++ JS.join "&" params end.

Record RegisterDefinitionArgs := mkRegisterDefinitionArgs {
  rd_definitionName : JS.value;
  rd_type : JS.value;
  rd_containerProperties : JS.value
}.

Definition registerDefinition_body (a : RegisterDefinitionArgs) : JS.value :=
  JS.JObj ([ ("jobDefinitionName", rd_definitionName a);
             ("type", JS.or_else (rd_type a) (JS.JStr "container")) ]
           ++ spread_if "containerProperties" (rd_containerProperties a))%list.

Definition registerDefinition (env : Env) (a : RegisterDefinitionArgs) : M JS.value :=
  let client := getBatchClient env in
  let body := registerDefinition_body a in
  data <- request env client "POST" "/v1/registerjobdefinition" body ;;
  ret data.

(** ** More of the specification's vocabulary *)

(** The data [request] signs and sends for an argument [data]: [null] is
    the default of the parameter. *)
Definition request_data (data : JS.value) : JS.value :=
  match data with JS.JUndefined => JS.JNull | _ => data end.

(** The arguments [request] hands to [buildAuthHeader]. *)
Definition request_args (c : Client) (method path : string) (data : JS.value) : AuthArgs :=
  mkAuthArgs method (c_baseURL c ++ path) (wire_body (request_data data)) "batch" (c_region c)
             (c_accessKeyId c) (c_secretAccessKey c).

(** Neither a colon nor a hyphen. *)
Definition clean (c : ascii) : bool := negb (Ascii.eqb c ":" || Ascii.eqb c "-").

(** The names of an object's properties, in order. *)
Definition keys (props : list (string * JS.value)) : list string := List.map fst props.

(** Every property holds a truthy value. *)
Definition all_truthy (props : list (string * JS.value)) : Prop :=
  Forall (fun kv => JS.truthy (snd kv) = true) props.

(** The value of one hexadecimal digit, upper or lower case. *)
Definition hex_value (c : ascii) : option Z :=
  let n := Bytes.byte_of_ascii c in
  if JS.is_digit c then Some (n - 48)%Z
  else if ((65 <=? n) && (n <=? 70))%Z then Some (n - 55)%Z
  else if ((97 <=? n) && (n <=? 102))%Z then Some (n - 87)%Z
  else None.

(** Percent-decoding, byte by byte: the inverse that [encodeURIComponent]
    is built to have.  A percent sign not followed by two hexadecimal digits
    is kept as it is. *)
Fixpoint percent_decode (s : string) : string :=
  match s with
  | EmptyString => ""
  | String c r =>
      match r with
      | String h (String l r') =>
          match hex_value h, hex_value l with
          | Some x, Some y =>
              if Ascii.eqb c "%" then String (Bytes.ascii_of_byte (16 * x + y)) (percent_decode r')
              else String c (percent_decode r)
          | _, _ => String c (percent_decode r)
          end
      | _ => String c (percent_decode r)
      end
  end.

(** The characters [encodeURIComponent] can write: the unreserved ones, the
    percent sign and the upper-case hexadecimal digits. *)
Definition uri_safe (c : ascii) : bool :=
  JS.unreserved c || Ascii.eqb c "%".

(** The number of occurrences of [c] in [s]. *)
Fixpoint count_char (c : ascii) (s : string) : nat :=
  match s with
  | EmptyString => O
  | String x r => ((if Ascii.eqb x c then 1 else 0) + count_char c r)%nat
  end.

(** An environment whose URL parser refuses everything. *)
Definition unparsing_env : Env :=
  mkEnv example_config (fun _ => example_instant) (fun _ => None)
        (fun _ => Resolved example_reply).

(** An error raised before any request was made. *)
Definition setup_error : AxiosError := mkAxiosError None false.

(** A server that answers every request with what it received. *)
Definition mirror_env (cfg : string -> option string) : Env :=
  mkEnv cfg (fun _ => example_instant) parse_https
    (fun r =>
       Resolved
         (JS.JObj [ ("method", JS.JStr (ax_method r));
                    ("url", JS.JStr (ax_url r));
                    ("data", ax_data r);
                    ("headers",
                     JS.JObj (List.map (fun h => (fst h, JS.JStr (snd h))) (ax_headers r))) ])).

(** ** The command line: [config list] *)

(** The styles of [chalk] the command uses. *)
Record Chalk := mkChalk {
  bold : string -> string;
  yellow : string -> string;
  cyan : string -> string;
  green : string -> string
}.

(** [s.repeat(n)]. *)
Fixpoint repeat_string (s : string) (n : nat) : string :=
  match n with
  | O => ""
  | S k => s ++ repeat_string s k
  end.

(** The action of [config list]: what it hands to [console.log], call by
    call, given the object [getAllConfig()] returns. *)
Definition config_list (chalk : Chalk) (all : list (string * JS.value)) : list string :=
  List.cons
    (bold chalk (JS.nl ++ "AWS Batch CLI Configuration" ++ JS.nl))
    (match all with
      | [] =>
          [ yellow chalk "No configuration set.";
            JS.nl ++ "Run:";
            cyan chalk "  awsbatch config set accessKeyId YOUR_KEY";
            cyan chalk "  awsbatch config set secretAccessKey YOUR_SECRET";
            cyan chalk "  awsbatch config set region us-east-1" ]
      | _ =>
          List.map
            (fun kv =>
               let '(k, v) := kv in
               let displayVal :=
                 if String.eqb k "secretAccessKey" then green chalk (repeat_string "*" 8)
                 else cyan chalk (JS.to_string v) in
               k ++ ": " ++ displayVal)
            all
      end).

(** A configuration with the value of the secret blotted out. *)
Definition forget_secret (all : list (string * JS.value)) : list (string * JS.value) :=
  List.map (fun kv => if String.eqb (fst kv) "secretAccessKey" then (fst kv, JS.JNull) else kv)
           all.

(** Styles that mark their text, so that styled and plain text differ. *)
Definition marking_chalk : Chalk :=
  mkChalk (fun s => "<b>" ++ s ++ "</b>") (fun s => "<y>" ++ s ++ "</y>")
          (fun s => "<c>" ++ s ++ "</c>") (fun s => "<g>" ++ s ++ "</g>").


(** ** The command line: [printTable]

    The table is laid out by the [length] of its texts, which counts UTF-16
    code units, so a text is here a list of code units of any type [char]:
    [of_ascii] gives the unit of an ASCII character, [dash] is the unit of
    the rule character, and the last four parameters are the styles of
    [chalk].

    A row is a value of the data, but what [row[key]] gives need not be
    one: the name may be found on the prototype chain, as [constructor] and
    [__proto__] are for every object, and a [format] may return anything.
    So what a cell holds is of a type [any] of its own: [member] is the
    property read of the engine on a row that is neither [null] nor
    [undefined], own properties and prototype chain alike, [nullish] is
    the test of [??], and [text_of] is [String(v)].  A property name stays
    a [string]. *)

Section Table.

Variable char : Type.
Variable of_ascii : ascii -> char.
Variable dash : char.
Variable any : Type.
Variable member : JS.value -> string -> any.
Variable nullish : any -> bool.
Variable text_of : any -> list char.
Variables t_bold t_cyan t_dim t_yellow : list char -> list char.

(** The code units of an ASCII text. *)
Definition lit (s : string) : list char := List.map of_ascii (list_ascii_of_string s).

(** One entry of [columns]: [{ key, label, format }].  A [format] is a
    function that returns, as those of the call sites do. *)
Record Column := mkColumn {
  col_key : string;
  col_label : list char;
  col_format : option (any -> JS.value -> any)
}.

(** [s.padEnd(n)]. *)
Definition padEnd (n : nat) (s : list char) : list char :=
  (s ++ List.repeat (of_ascii " ") (n - List.length s))%list.

(** [parts.join('  ')]. *)
Fixpoint join2 (parts : list (list char)) : list char :=
  match parts with
  | [] => []
  | [p] => p
  | p :: r => (p ++ of_ascii " " :: of_ascii " " :: join2 r)%list
  end.

(** [row[key]]; [None] is the [TypeError] of reading a property of [null]
    or [undefined]. *)
Definition row_get (row : JS.value) (key : string) : option any :=
  match row with
  | JS.JNull | JS.JUndefined => None
  | _ => Some (member row key)
  end.

(** The text of a cell:
    [String(col.format ? col.format(row[col.key], row) : (row[col.key] ?? ''))]. *)
Definition cell (col : Column) (row : JS.value) : option (list char) :=
  match row_get row (col_key col) with
  | None => None
  | Some v =>
      match col_format col with
      | Some format => Some (text_of (format v row))
      | None => Some (if nullish v then [] else text_of v)
      end
  end.

(** The object [widths].  Under a name it holds the number stored there,
    and [None] when what the code reads there is no number ([undefined], a
    member of [Object.prototype], [NaN]): a comparison with it is false, and
    [padEnd] and [substring] take it for 0. *)
Definition Widths : Type := string -> option nat.

(** [widths[key] = w].  The name [__proto__] is the accessor of
    [Object.prototype], whose setter ignores a number: nothing is stored,
    and the name goes on reading as the prototype object. *)
Definition set_width (key : string) (w : nat) (widths : Widths) : Widths :=
  if String.eqb key "__proto__" then widths
  else fun k => if String.eqb k key then Some w else widths k.

(** [if (val.length > widths[key]) widths[key] = val.length]. *)
Definition widen (key : string) (val : list char) (widths : Widths) : Widths :=
  match widths key with
  | Some w =>
      if Nat.ltb w (List.length val) then set_width key (List.length val) widths else widths
  | None => widths
  end.

(** [widths[key] = Math.min(widths[key], 40)]; the minimum with what is no
    number is [NaN], no number either. *)
Definition cap (key : string) (widths : Widths) : Widths :=
  match widths key with
  | Some w => set_width key (Nat.min w 40) widths
  | None => widths
  end.

(** The body of the first loop over the columns: the width of the column
    starts at the length of its label, is raised by every longer cell, and
    is capped at 40. *)
Definition measure (col : Column) (rows : list JS.value) (widths : Widths) : option Widths :=
  option_map (cap (col_key col))
    (List.fold_left
       (fun acc row =>
          match acc, cell col row with
          | Some widths, Some val => Some (widen (col_key col) val widths)
          | _, _ => None
          end)
       rows (Some (set_width (col_key col) (List.length (col_label col)) widths))).

(** The first loop over the columns, from [widths = {}]. *)
Definition compute_widths (columns : list Column) (rows : list JS.value) : option Widths :=
  List.fold_left
    (fun acc col =>
       match acc with
       | Some widths => measure col rows widths
       | None => None
       end)
    columns (Some (fun _ => None)).

(** The length [padEnd] and [substring] make of [widths[key]]. *)
Definition width_at (widths : Widths) (key : string) : nat :=
  match widths key with
  | Some w => w
  | None => O
  end.

Definition header (widths : Widths) (columns : list Column) : list char :=
  join2 (List.map (fun col => padEnd (width_at widths (col_key col)) (col_label col)) columns).

(** One line of the table; a cell is cut to the width of its column before
    it is padded. *)
Definition line (widths : Widths) (columns : list Column) (row : JS.value) : list char :=
  join2 (List.map
           (fun col =>
              let val := match cell col row with Some val => val | None => [] end in
              padEnd (width_at widths (col_key col))
                     (List.firstn (width_at widths (col_key col)) val))
           columns).

(** [printTable(data, columns)]: what it hands to [console.log], call by
    call, and whether it returned ([false]: it threw a [TypeError]). *)
Definition printTable (data : JS.value) (columns : list Column) : list (list char) * bool :=
  let no_results := ([t_yellow (lit "No results found.")], true) in
  let not_iterable :=
    match columns with
    | [] => ([t_bold (t_cyan []); t_dim []], false)
    | _ => ([], false)
    end in
  if negb (JS.truthy data) then no_results
  else
    match data with
    | JS.JArr [] => no_results
    | JS.JArr rows =>
        match compute_widths columns rows with
        | None => ([], false)
        | Some widths =>
            let h := header widths columns in
            (t_bold (t_cyan h)
             :: t_dim (List.repeat dash (List.length h))
             :: List.map (line widths columns) rows
             ++ [t_dim (lit (JS.nl ++ JS.decimal (Z.of_nat (List.length rows)) ++ " result(s)"))],
             true)%list
        end
    | JS.JObj props =>
        match JS.lookup "length" props with
        | JS.JNum 0 => no_results
        | _ => not_iterable
        end
    | _ => not_iterable
    end.

End Table.

Arguments lit {char} of_ascii s.
Arguments Column char any : clear implicits.
Arguments mkColumn {char any} col_key col_label col_format.
Arguments col_key {char any} c.
Arguments col_label {char any} c.
Arguments col_format {char any} c.
Arguments padEnd {char} of_ascii n s.
Arguments join2 {char} of_ascii parts.
Arguments row_get {any} member row key.
Arguments widen {char} key val widths.
Arguments cell {char any} member nullish text_of col row.
Arguments measure {char any} member nullish text_of col rows widths.
Arguments compute_widths {char any} member nullish text_of columns rows.
Arguments header {char} of_ascii {any} widths columns.
Arguments line {char} of_ascii {any} member nullish text_of widths columns row.
Arguments printTable {char} of_ascii dash {any} member nullish text_of
  t_bold t_cyan t_dim t_yellow data columns.

(** A row whose properties can be read: neither [null] nor [undefined]. *)
Definition is_row (row : JS.value) : Prop := row <> JS.JNull /\ row <> JS.JUndefined.

(** For the examples, whose keys are own properties of their rows or are
    found nowhere: cells that are values of the data, with [v == null] and
    [String(v)] on them. *)
Definition is_nullish (v : JS.value) : bool :=
  match v with
  | JS.JUndefined | JS.JNull => true
  | _ => false
  end.

Definition ascii_text (v : JS.value) : list ascii := list_ascii_of_string (JS.to_string v).

(** The columns of [jobs list], with the formats that do not depend on the
    locale. *)
Definition example_columns : list (Column ascii JS.value) :=
  [ mkColumn "jobId" (list_ascii_of_string "Job ID")
      (Some (fun v _ =>
               if JS.truthy v
               then JS.JStr (String.substring 0 16 (JS.to_string v) ++ "...")
               else JS.JStr ""));
    mkColumn "jobName" (list_ascii_of_string "Name") None;
    mkColumn "status" (list_ascii_of_string "Status") None ].

Definition example_rows : list JS.value :=
  [ JS.JObj [ ("jobId", JS.JStr "0123456789abcdef0123"); ("jobName", JS.JStr "nightly");
              ("status", JS.JStr "RUNNING") ];
    JS.JObj [ ("jobId", JS.JStr "42"); ("status", JS.JNull) ] ].

(** A column whose label is longer than the cap of 40. *)
Definition long_column : Column ascii JS.value :=
  mkColumn "jobQueue" (List.repeat "q"%char 41) None.

(** ** Bytes and digests *)

Lemma land_255_byte (x : Z) : is_byte (Z.land x 255).
Proof.
  unfold is_byte. change 255%Z with (Z.ones 8).
  rewrite Z.land_ones by lia. apply Z.mod_pos_bound. lia.
Qed.

Lemma be_length (n : nat) (v : Z) : List.length (Bytes.be n v) = n.
Proof. induction n as [|n IH]; simpl; [reflexivity | now rewrite IH]. Qed.

Lemma be_bytes (n : nat) (v : Z) : Forall is_byte (Bytes.be n v).
Proof.
  induction n as [|n IH]; simpl; constructor; [apply land_255_byte | exact IH].
Qed.

Lemma compress_length (h block : list Z) :
  List.length h = 8%nat -> List.length (SHA256.compress h block) = 8%nat.
Proof.
  intros Hh. unfold SHA256.compress.
  rewrite List.length_map, List.length_combine, Hh. reflexivity.
Qed.

Lemma blocks_length (n : nat) :
  forall h ws, List.length h = 8%nat -> List.length (SHA256.blocks n h ws) = 8%nat.
Proof.
  induction n as [|n IH]; intros h ws Hh; simpl; [exact Hh|].
  destruct ws as [|w ws']; [exact Hh|].
  apply IH. now apply compress_length.
Qed.

Lemma digest_length (m : Bytes.buffer) : List.length (SHA256.digest m) = 32%nat.
Proof.
  unfold SHA256.digest.
  pose proof (blocks_length (List.length (SHA256.words (SHA256.pad m))) SHA256.H0
                (SHA256.words (SHA256.pad m)) eq_refl) as H.
  destruct (SHA256.blocks _ _ _) as [|a [|b [|c [|d [|e [|f [|g [|h [|i r]]]]]]]]];
    simpl in H; try discriminate.
  reflexivity.
Qed.

Lemma digest_bytes (m : Bytes.buffer) : Forall is_byte (SHA256.digest m).
Proof.
  unfold SHA256.digest.
  induction (SHA256.blocks _ _ _) as [|w ws IH]; [constructor|].
  change (Forall is_byte (Bytes.be 4 w ++ List.concat (List.map (Bytes.be 4) ws))%list).
  apply Forall_app. split; [apply be_bytes | exact IH].
Qed.

Lemma hmac_length (key msg : Bytes.buffer) : List.length (HMAC.hmac key msg) = 32%nat.
Proof. unfold HMAC.hmac. apply digest_length. Qed.

Lemma hmac_bytes (key msg : Bytes.buffer) : Forall is_byte (HMAC.hmac key msg).
Proof. unfold HMAC.hmac. apply digest_bytes. Qed.

Lemma all_below_spec (p : Z -> bool) (k : nat) :
  all_below p k = true -> forall n, (0 <= n < Z.of_nat k)%Z -> p n = true.
Proof.
  induction k as [|j IH]; intros Hall n Hn; [lia|].
  cbn [all_below] in Hall. apply andb_true_iff in Hall. destruct Hall as [Hj Hrest].
  destruct (Z.eq_dec n (Z.of_nat j)) as [-> | Hne]; [exact Hj|].
  apply IH; [exact Hrest | lia].
Qed.

Lemma hex_digit_lower (n : Z) : (0 <= n < 16)%Z -> is_lower_hex (Bytes.hex_digit n) = true.
Proof.
  apply (all_below_spec (fun k => is_lower_hex (Bytes.hex_digit k)) 16). reflexivity.
Qed.

Lemma hex_lower (b : Bytes.buffer) :
  Forall is_byte b -> all_chars is_lower_hex (Bytes.hex b) = true.
Proof.
  induction 1 as [|x r Hx _ IH]; simpl; [reflexivity|].
  unfold is_byte in Hx.
  rewrite IH, !hex_digit_lower; [reflexivity | |].
  - change 15%Z with (Z.ones 4). rewrite Z.land_ones by lia. apply Z.mod_pos_bound. lia.
  - rewrite Z.shiftr_div_pow2 by lia. change (2 ^ 4)%Z with 16%Z.
    split; [apply Z.div_pos; lia | apply Z.div_lt_upper_bound; lia].
Qed.

Lemma hex_length (b : Bytes.buffer) : String.length (Bytes.hex b) = (2 * List.length b)%nat.
Proof. induction b as [|x r IH]; simpl; [reflexivity | rewrite IH; lia]. Qed.

Lemma hexdigest_length (s : string) : String.length (SHA256.hexdigest s) = 64%nat.
Proof. unfold SHA256.hexdigest. now rewrite hex_length, digest_length. Qed.

Lemma hexdigest_lower (s : string) : all_chars is_lower_hex (SHA256.hexdigest s) = true.
Proof. unfold SHA256.hexdigest. apply hex_lower, digest_bytes. Qed.

(** Known answers of the primitives (FIPS 180-4 and RFC 4231 test vectors). *)
Example sha256_empty :
  SHA256.hexdigest "" = "e3b0c44298fc1c149afbf4c8996fb92427ae41e4649b934ca495991b7852b855".
Proof. vm_compute. reflexivity. Qed.

Example sha256_abc :
  SHA256.hexdigest "abc" = "ba7816bf8f01cfea414140de5dae2223b00361a396177a9cb410ff61f20015ad".
Proof. vm_compute. reflexivity. Qed.

Example sha256_two_blocks :
  SHA256.hexdigest "abcdbcdecdefdefgefghfghighijhijkijkljklmklmnlmnomnopnopq"
  = "248d6a61d20638b8e5c026930c3e6039a33ce45964ff2167f6ecedd419db06c1".
Proof. vm_compute. reflexivity. Qed.

Example hmac_rfc4231_case2 :
  Bytes.hex (HMAC.hmac (Bytes.of_string "Jefe") (Bytes.of_string "what do ya want for nothing?"))
  = "5bdcc146bf60754e6a042426089575c75a003f089d2739839dec58b964ec3843".
Proof. vm_compute. reflexivity. Qed.

(** ** Key derivation *)

(** C1. [getSigningKey] returns, for every secret, date stamp, region and
    service, the raw 32 bytes of the four-step HMAC-SHA256 chain keyed first
    by ["AWS4" + secret] and fed the date stamp, the region, the service and
    ["aws4_request"] in that order; it agrees with the chain as the
    specification words it, and on the known vector both give the key
    [f3c67615...d501feee]. *)
Theorem getSigningKey_chain :
  (forall secret dateStamp regionName serviceName : string,
      getSigningKey (Some secret) dateStamp regionName serviceName
      = HMAC.hmac
          (HMAC.hmac
             (HMAC.hmac
                (HMAC.hmac (Bytes.of_string ("AWS4" ++ secret)) (Bytes.of_string dateStamp))
                (Bytes.of_string regionName))
             (Bytes.of_string serviceName))
          (Bytes.of_string "aws4_request")
      /\ getSigningKey (Some secret) dateStamp regionName serviceName
         = spec_derive secret dateStamp regionName serviceName
      /\ List.length (getSigningKey (Some secret) dateStamp regionName serviceName) = 32%nat
      /\ Forall is_byte (getSigningKey (Some secret) dateStamp regionName serviceName))
  /\ getSigningKey (Some "wJalrXUtnFEMI/K7MDENG/bPxRfiCYEXAMPLEKEY") "20150830" "us-east-1" "batch"
     = spec_derive "wJalrXUtnFEMI/K7MDENG/bPxRfiCYEXAMPLEKEY" "20150830" "us-east-1" "batch"
  /\ Bytes.hex (spec_derive "wJalrXUtnFEMI/K7MDENG/bPxRfiCYEXAMPLEKEY" "20150830" "us-east-1" "batch")
     = "f3c67615cb5acfd0b48aee20a49bf9f98d790d5d7db5d6046cc2ca04d501feee".
Proof.
  assert (forall secret d r v, getSigningKey (Some secret) d r v = spec_derive secret d r v)
    as Hspec by (intros; unfold getSigningKey, spec_derive, sign, str; reflexivity).
  split; [|split].
  - intros secret dateStamp regionName serviceName.
    split; [|split; [|split]].
    + unfold getSigningKey, sign, str. reflexivity.
    + apply Hspec.
    + unfold getSigningKey, sign. apply hmac_length.
    + unfold getSigningKey, sign. apply hmac_bytes.
  - apply Hspec.
  - vm_compute. reflexivity.
Qed.

(** ** Strings *)

Lemma substring_all (s : string) : String.substring 0 (String.length s) s = s.
Proof. induction s as [|c r IH]; simpl; [reflexivity | now rewrite IH]. Qed.

Lemma slice_from_1 (c : ascii) (s : string) : JS.slice_from 1 (String c s) = s.
Proof.
  unfold JS.slice_from. simpl String.length. rewrite Nat.sub_succ, Nat.sub_0_r.
  simpl. apply substring_all.
Qed.

Lemma str_or_empty (x : option string) :
  str_or x "" = match x with Some b => b | None => "" end.
Proof.
  destruct x as [b|]; simpl; [|reflexivity].
  destruct (String.eqb_spec b ""); congruence.
Qed.

Lemma lower_char_idem (c : ascii) : JS.lower_char (JS.lower_char c) = JS.lower_char c.
Proof. destruct c as [[] [] [] [] [] [] [] []]; reflexivity. Qed.

Lemma toLowerCase_idem (s : string) : JS.toLowerCase (JS.toLowerCase s) = JS.toLowerCase s.
Proof.
  unfold JS.toLowerCase.
  induction s as [|c r IH]; simpl; [reflexivity | now rewrite lower_char_idem, IH].
Qed.

(** The built-ins on known inputs. *)
Example toISOString_known :
  List.map JS.toISOString [0; 951782400000; -1; 1440938160123]%Z
  = [ "1970-01-01T00:00:00.000Z"; "2000-02-29T00:00:00.000Z";
      "1969-12-31T23:59:59.999Z"; "2015-08-30T12:36:00.123Z" ].
Proof. vm_compute. reflexivity. Qed.

Example JSON_stringify_known :
  JS.JSON_stringify
    (JS.JObj [ ("a", JS.JNum (-12)); ("u", JS.JUndefined);
               ("b", JS.JArr [JS.JNull; JS.JUndefined; JS.JBool true; JS.JStr ("x" ++ JS.nl)]) ])
  = Some ("{" ++ quoted "a" ++ ":-12," ++ quoted "b" ++ ":[null,null,true,"
          ++ quoted "x\n" ++ "]}").
Proof. vm_compute. reflexivity. Qed.

Example encodeURIComponent_known :
  JS.encodeURIComponent "a b/c?d=e&f~(g)*" = "a%20b%2Fc%3Fd%3De%26f~(g)*".
Proof. vm_compute. reflexivity. Qed.

(** ** The timestamp *)

(** The calendar arithmetic of [JS.civil] is linear once its quotients are
    named: every case of it is settled by [lia]. *)
Ltac civil_cases :=
  unfold JS.civil;
  match goal with
  | |- context [(?day + 719468) / 146097] =>
      set (z := day + 719468);
      set (era := z / 146097);
      set (doe := z mod 146097);
      set (yoe := (doe - doe / 1460 + doe / 36524 - doe / 146096) / 365);
      set (doy := doe - (365 * yoe + yoe / 4 - yoe / 100));
      set (mp := (5 * doy + 2) / 153);
      cbv zeta; cbn [fst snd];
      destruct (Z.ltb_spec mp 10);
      repeat match goal with
             | |- context [if ?c then _ else _] => destruct c eqn:?
             end;
      repeat match goal with
             | H : (_ <=? _)%Z = true |- _ => apply Z.leb_le in H
             | H : (_ <=? _)%Z = false |- _ => apply Z.leb_gt in H
             end;
      subst mp doy yoe doe era z;
      Z.div_mod_to_equations; lia
  end.

(** The years 0000 to 9999 are the days from 0000-01-01 to 9999-12-31. *)
Lemma civil_year_range (day : Z) :
  (-719528 <= day <= 2932896)%Z <-> (0 <= fst (fst (JS.civil day)) <= 9999)%Z.
Proof. split; intros H; [civil_cases|]. revert H. civil_cases. Qed.

Lemma civil_month_day_range (day : Z) :
  (1 <= snd (fst (JS.civil day)) <= 12)%Z /\ (1 <= snd (JS.civil day) <= 31)%Z.
Proof. civil_cases. Qed.

(** The instants whose year has four digits: from 0000-01-01T00:00:00.000Z
    to 9999-12-31T23:59:59.999Z. *)
Lemma four_digit_year_instants (t : Z) :
  (-62167219200000 <= t < 253402300800000)%Z <-> (0 <= JS.YearFromTime t <= 9999)%Z.
Proof.
  unfold JS.YearFromTime. rewrite <- civil_year_range.
  unfold JS.Day, JS.msPerDay. split; intros H; Z.div_mod_to_equations; lia.
Qed.

(** Every field of the ISO text fits the width it is padded to. *)
Lemma time_fields_range (t : Z) :
  (1 <= JS.MonthFromTime t <= 12)%Z /\ (1 <= JS.DateFromTime t <= 31)%Z
  /\ (0 <= JS.HourFromTime t < 24)%Z /\ (0 <= JS.MinFromTime t < 60)%Z
  /\ (0 <= JS.SecFromTime t < 60)%Z /\ (0 <= JS.msFromTime t < 1000)%Z.
Proof.
  destruct (civil_month_day_range (JS.Day t)) as [Hm Hd].
  unfold JS.MonthFromTime, JS.DateFromTime, JS.HourFromTime, JS.MinFromTime, JS.SecFromTime,
    JS.msFromTime, JS.TimeWithinDay, JS.msPerDay.
  split; [exact Hm|]. split; [exact Hd|].
  Z.div_mod_to_equations. lia.
Qed.

Lemma digit_char (n : Z) :
  JS.is_digit (JS.digit n) = true
  /\ Ascii.eqb (JS.digit n) ":" = false
  /\ Ascii.eqb (JS.digit n) "-" = false
  /\ Ascii.eqb (JS.digit n) "." = false.
Proof.
  pose proof
    (all_below_spec
       (fun m => let c := Bytes.ascii_of_byte (48 + m) in
                 JS.is_digit c && negb (Ascii.eqb c ":") && negb (Ascii.eqb c "-")
                 && negb (Ascii.eqb c "."))
       10 eq_refl (n mod 10) (Z.mod_pos_bound n 10 eq_refl)) as H.
  cbv beta zeta in H. fold (JS.digit n) in H.
  repeat (apply andb_true_iff in H; destruct H as [H ?]).
  repeat match goal with
         | Hn : negb _ = true |- _ => apply negb_true_iff in Hn
         end.
  split; [|split; [assumption | split; assumption]].
  unfold JS.is_digit. apply andb_true_iff. split; assumption.
Qed.

Lemma strip_digit (n : Z) (r : string) :
  JS.strip 0 (String (JS.digit n) r) = String (JS.digit n) (JS.strip 0 r).
Proof.
  destruct (digit_char n) as (_ & H1 & H2 & H3).
  cbn [JS.strip]. now rewrite H1, H2, H3.
Qed.

Lemma strip_dash (r : string) : JS.strip 0 (String "-" r) = JS.strip 0 r.
Proof. reflexivity. Qed.

Lemma strip_colon (r : string) : JS.strip 0 (String ":" r) = JS.strip 0 r.
Proof. reflexivity. Qed.

Lemma strip_T (r : string) : JS.strip 0 (String "T" r) = String "T" (JS.strip 0 r).
Proof. reflexivity. Qed.

Lemma strip_Z (r : string) : JS.strip 0 (String "Z" r) = String "Z" (JS.strip 0 r).
Proof. reflexivity. Qed.

Lemma strip_millis (a b c : Z) (r : string) :
  JS.strip 0 (String "." (String (JS.digit a) (String (JS.digit b) (String (JS.digit c) r))))
  = JS.strip 0 r.
Proof.
  destruct (digit_char a) as (Ha & _), (digit_char b) as (Hb & _), (digit_char c) as (Hc & _).
  cbn [JS.strip JS.three_digits Ascii.eqb Bool.eqb orb andb]. now rewrite Ha, Hb, Hc.
Qed.

Create Rewrite HintDb iso.

#[local] Hint Rewrite strip_digit strip_dash strip_colon strip_T strip_Z strip_millis : iso.

(** The timestamp of an instant in the years 0000 to 9999. *)
Lemma amzDate_four_digit_year (a : AuthArgs) (u : URL) (now : Z) :
  (0 <= JS.YearFromTime now <= 9999)%Z ->
  amzDate (signing a u now) = compact_date now ++ "T" ++ compact_time now ++ "Z".
Proof.
  intros Hy. unfold signing. cbn [amzDate].
  unfold JS.toISOString, JS.year_string, compact_date, compact_time.
  replace ((0 <=? JS.YearFromTime now) && (JS.YearFromTime now <=? 9999))%Z with true
    by (symmetry; apply andb_true_intro; split; apply Z.leb_le; lia).
  cbn [JS.pad String.append].
  autorewrite with iso.
  reflexivity.
Qed.

(** The date stamp is cut from the timestamp, at every instant. *)
Lemma dateStamp_of_amzDate (a : AuthArgs) (u : URL) (now : Z) :
  let s := signing a u now in
  dateStamp s = JS.slice 0 8 (amzDate s)
  /\ credentialScope s
     = JS.slice 0 8 (amzDate s) ++ "/" ++ region a ++ "/" ++ service a ++ "/aws4_request"
  /\ signingKey s
     = getSigningKey (secretAccessKey a) (JS.slice 0 8 (amzDate s)) (region a) (service a).
Proof.
  intros s. subst s. unfold signing.
  cbn [dateStamp amzDate credentialScope signingKey].
  split; [reflexivity|]. split; reflexivity.
Qed.

(** ** The signer *)

(** The raw query string of the parsed URL. *)
Lemma queryString_raw (a : AuthArgs) (u : URL) (now : Z) :
  queryString (signing a u now) = match query u with Some q => q | None => "" end.
Proof.
  unfold signing. cbn [queryString]. unfold search.
  destruct (query u) as [q|]; [|reflexivity].
  destruct (String.eqb_spec q "") as [->|Hq]; [reflexivity|].
  change ("?" ++ q) with (String "?" q). cbn [String.eqb Ascii.eqb].
  apply slice_from_1.
Qed.

Lemma buildAuthHeader_invalid_url (env : Env) (a : AuthArgs) (t : nat) :
  parseURL env (url a) = None ->
  buildAuthHeader env a t = (Thrown (TypeError "Invalid URL"), t).
Proof.
  intros Hu. unfold buildAuthHeader, bind, new_URL. rewrite Hu. reflexivity.
Qed.

Section OneSigningRun.

Variables (env : Env) (a : AuthArgs) (t : nat) (u : URL).

(** The URL of the request is well formed. *)
Hypothesis parsed : parseURL env (url a) = Some u.

(** One run of [buildAuthHeader]: the URL is parsed, the clock is read once,
    and the result is made of the constants bound from that reading. *)
Lemma buildAuthHeader_run :
  buildAuthHeader env a t
  = (Returned (mkAuthHeader (authorization (signing a u (clock env t)))
                            (amzDate (signing a u (clock env t)))), S t).
Proof. unfold buildAuthHeader, bind, new_URL. rewrite parsed. reflexivity. Qed.

(** C2. The canonical request that [buildAuthHeader] hashes is the six
    fields joined by newlines: the upper-cased method, the parsed URL's path
    as it is, its raw query string (empty when there is none), the block
    [host:<host>\nx-amz-date:<amzDate>\n], the literal [host;x-amz-date],
    and the 64 lower-case hex digits of the SHA-256 digest of the body.  The
    host of the block is the parsed URL's host, which the signer passes
    through unchanged: it is lower-case because the URL is an [https] URL,
    as every URL the client builds is, and the parser hands those out so. *)
Theorem canonical_request_fields :
  let s := signing a u (clock env t) in
  buildAuthHeader env a t = (Returned (mkAuthHeader (authorization s) (amzDate s)), S t)
  /\ canonicalRequest s
     = JS.join JS.nl
         [ JS.toUpperCase (method a);
           pathname u;
           match query u with Some q => q | None => "" end;
           "host:" ++ host u ++ JS.nl ++ "x-amz-date:" ++ amzDate s ++ JS.nl;
           "host;x-amz-date";
           SHA256.hexdigest (match body a with Some b => b | None => "" end) ]
  /\ (String.prefix "https://" (url a) = true -> lowercases_host env ->
      host u = JS.toLowerCase (host u))
  /\ (forall e path, String.prefix "https://" (c_baseURL (getBatchClient e) ++ path) = true)
  /\ String.length (SHA256.hexdigest (match body a with Some b => b | None => "" end)) = 64%nat
  /\ all_chars is_lower_hex
       (SHA256.hexdigest (match body a with Some b => b | None => "" end)) = true.
Proof.
  intros s.
  split; [exact buildAuthHeader_run|].
  split; [|split; [intros Hs Hlow; exact (Hlow _ _ Hs parsed)
                  |split; [|split; [apply hexdigest_length|apply hexdigest_lower]]]].
  - pose proof (queryString_raw a u (clock env t)) as Hq.
    pose proof (str_or_empty (body a)) as Hb.
    subst s. unfold signing in *. cbn [canonicalRequest queryString amzDate] in *.
    rewrite Hq, Hb. reflexivity.
  - intros e path. unfold getBatchClient. cbn [c_baseURL]. reflexivity.
Qed.

(** C3. The signer's string to sign is the algorithm name, the timestamp,
    the credential scope and the hex SHA-256 of the canonical request, one
    per line; the scope is [dateStamp/region/service/aws4_request]; the
    signature is the hex HMAC-SHA256 of the string to sign under the key of
    the derivation chain; and the value returned as authorization header is
    the algorithm name with [Credential], [SignedHeaders] and [Signature]. *)
Theorem signer_authorization :
  let s := signing a u (clock env t) in
  credentialScope s = dateStamp s ++ "/" ++ region a ++ "/" ++ service a ++ "/aws4_request"
  /\ stringToSign s
     = "AWS4-HMAC-SHA256" ++ JS.nl ++ amzDate s ++ JS.nl ++ credentialScope s ++ JS.nl
       ++ SHA256.hexdigest (canonicalRequest s)
  /\ signingKey s
     = HMAC.hmac
         (HMAC.hmac
            (HMAC.hmac
               (HMAC.hmac (Bytes.of_string ("AWS4" ++ str (secretAccessKey a)))
                          (Bytes.of_string (dateStamp s)))
               (Bytes.of_string (region a)))
            (Bytes.of_string (service a)))
         (Bytes.of_string "aws4_request")
  /\ signature s = Bytes.hex (HMAC.hmac (signingKey s) (Bytes.of_string (stringToSign s)))
  /\ authorization s
     = "AWS4-HMAC-SHA256 Credential=" ++ str (accessKeyId a) ++ "/" ++ credentialScope s
       ++ ", SignedHeaders=host;x-amz-date, Signature=" ++ signature s
  /\ fst (buildAuthHeader env a t) = Returned (mkAuthHeader (authorization s) (amzDate s)).
Proof.
  intros s.
  rewrite buildAuthHeader_run. fold s.
  subst s. unfold signing, getSigningKey, sign.
  cbn [credentialScope stringToSign signingKey signature authorization dateStamp amzDate
       canonicalRequest fst].
  split; [reflexivity|]. split; [reflexivity|]. split; [reflexivity|].
  split; [reflexivity|]. split; [|reflexivity].
  cbn [String.append]. reflexivity.
Qed.

(** C8.  A signing operation reads the clock exactly once, and the date
    stamp of the credential scope and of the key derivation is the first
    eight characters of the timestamp made from that reading.  At every
    instant whose year is written [YYYY] (0000 to 9999), the timestamp is the
    16 characters [YYYYMMDDTHHMMSSZ] of that instant and the date stamp is
    its [YYYYMMDD]. *)
Theorem amzDate_compact :
  let now := clock env t in
  let s := signing a u now in
  buildAuthHeader env a t = (Returned (mkAuthHeader (authorization s) (amzDate s)), S t)
  /\ dateStamp s = JS.slice 0 8 (amzDate s)
  /\ credentialScope s
     = JS.slice 0 8 (amzDate s) ++ "/" ++ region a ++ "/" ++ service a ++ "/aws4_request"
  /\ signingKey s
     = getSigningKey (secretAccessKey a) (JS.slice 0 8 (amzDate s)) (region a) (service a)
  /\ ((0 <= JS.YearFromTime now <= 9999)%Z ->
      amzDate s = compact_date now ++ "T" ++ compact_time now ++ "Z"
      /\ String.length (amzDate s) = 16%nat
      /\ all_chars JS.is_digit (compact_date now) = true
      /\ all_chars JS.is_digit (compact_time now) = true
      /\ dateStamp s = compact_date now).
Proof.
  intros now s.
  destruct (dateStamp_of_amzDate a u now) as (Hd & Hc & Hk). fold s in Hd, Hc, Hk.
  split; [exact buildAuthHeader_run|].
  split; [exact Hd|]. split; [exact Hc|]. split; [exact Hk|].
  intros Hy.
  pose proof (amzDate_four_digit_year a u now Hy) as Hamz. fold s in Hamz.
  split; [exact Hamz|].
  split; [rewrite Hamz; reflexivity|].
  split.
  { unfold compact_date. cbn [JS.pad String.append all_chars].
    now rewrite !(proj1 (digit_char _)). }
  split.
  { unfold compact_time. cbn [JS.pad String.append all_chars].
    now rewrite !(proj1 (digit_char _)). }
  rewrite Hd, Hamz. reflexivity.
Qed.

End OneSigningRun.

(** C4. When the body is absent or empty, the payload hash, the last field
    of the canonical request, is the SHA-256 digest of the empty string; the
    empty string is the body the transport signs for a call without data. *)
Theorem empty_body_payload_hash (a : AuthArgs) (u : URL) (now : Z) :
  body a = None \/ body a = Some "" ->
  let s := signing a u now in
  payloadHash s = "e3b0c44298fc1c149afbf4c8996fb92427ae41e4649b934ca495991b7852b855"
  /\ canonicalRequest s
     = JS.join JS.nl
         [ JS.toUpperCase (method a); pathname u; queryString s; canonicalHeaders s;
           "host;x-amz-date";
           "e3b0c44298fc1c149afbf4c8996fb92427ae41e4649b934ca495991b7852b855" ]
  /\ wire_body JS.JNull = Some "".
Proof.
  intros Hb s.
  assert (str_or (body a) "" = "") as He by (destruct Hb as [-> | ->]; reflexivity).
  assert (payloadHash s
          = "e3b0c44298fc1c149afbf4c8996fb92427ae41e4649b934ca495991b7852b855") as Hp.
  { subst s. unfold signing. cbn [payloadHash]. rewrite He. exact sha256_empty. }
  split; [exact Hp|]. split; [|reflexivity].
  rewrite <- Hp. subst s. unfold signing.
  cbn [canonicalRequest payloadHash queryString canonicalHeaders]. reflexivity.
Qed.

(** ** The instance parser *)

Lemma parse_https_lowercases (cfg : string -> option string) (now : Z) (reply : AxiosOutcome) :
  lowercases_host (env_with cfg now reply).
Proof.
  intros s u _. cbn [parseURL env_with]. unfold parse_https.
  destruct (String.prefix "https://" s); [|discriminate].
  destruct (span _ _) as [authority r1].
  destruct (span _ r1) as [path r2].
  destruct (span _ r2) as [q r3].
  destruct (String.eqb authority ""); [discriminate|].
  intros [= <-]. cbn [host]. symmetry. apply toLowerCase_idem.
Qed.

Lemma canonical_request_fields_witness :
  parseURL example_env (url example_args) = Some example_url
  /\ String.prefix "https://" (url example_args) = true
  /\ lowercases_host example_env
  /\ host example_url = JS.toLowerCase (host example_url)
  /\ canonicalRequest (signing example_args example_url (clock example_env 0%nat))
     = "GET" ++ JS.nl ++ "/v1/jobqueues" ++ JS.nl ++ "jobQueues=q1" ++ JS.nl
       ++ "host:batch.us-east-1.amazonaws.com" ++ JS.nl
       ++ "x-amz-date:20150830T123600Z" ++ JS.nl ++ JS.nl
       ++ "host;x-amz-date" ++ JS.nl
       ++ "e3b0c44298fc1c149afbf4c8996fb92427ae41e4649b934ca495991b7852b855".
Proof.
  split; [vm_compute; reflexivity|].
  split; [reflexivity|].
  split; [apply parse_https_lowercases|].
  destruct (canonical_request_fields example_env example_args 0%nat example_url
              ltac:(vm_compute; reflexivity))
    as (_ & H & Hlow & _).
  split; [exact (Hlow eq_refl (parse_https_lowercases _ _ _))|].
  rewrite H. vm_compute. reflexivity.
Defined.

(** A query of several parameters is signed in the order it was written. *)
Example canonical_query_not_sorted :
  option_map (fun u => queryString (signing example_args u example_instant))
    (parse_https "https://batch.us-east-1.amazonaws.com/v1/jobdefinitions?status=ACTIVE&jobDefinitionName=a%20b")
  = Some "status=ACTIVE&jobDefinitionName=a%20b".
Proof. vm_compute. reflexivity. Qed.

Lemma signer_authorization_witness :
  parseURL example_env (url example_args) = Some example_url
  /\ fst (buildAuthHeader example_env example_args 0%nat)
     = Returned
         (mkAuthHeader
            ("AWS4-HMAC-SHA256 Credential=AKIDEXAMPLE/20150830/us-east-1/batch/aws4_request, "
             ++ "SignedHeaders=host;x-amz-date, "
             ++ "Signature=b8d412d7cdb5666d8fb016cbb28080c6b5e7690d5f7be073fbc4b02f64aa8af0")
            "20150830T123600Z").
Proof.
  split; [vm_compute; reflexivity|].
  destruct (signer_authorization example_env example_args 0%nat example_url
              ltac:(vm_compute; reflexivity))
    as (_ & _ & _ & _ & _ & H).
  rewrite H. vm_compute. reflexivity.
Defined.

Lemma empty_body_payload_hash_witness :
  (body example_args = None \/ body example_args = Some "")
  /\ payloadHash (signing example_args example_url example_instant)
     = "e3b0c44298fc1c149afbf4c8996fb92427ae41e4649b934ca495991b7852b855".
Proof.
  split; [left; reflexivity|].
  exact (proj1 (empty_body_payload_hash example_args example_url example_instant
                  (or_introl eq_refl))).
Defined.

Lemma amzDate_compact_witness :
  parseURL example_env (url example_args) = Some example_url
  /\ (0 <= JS.YearFromTime (clock example_env 0%nat) <= 9999)%Z
  /\ amzDate (signing example_args example_url (clock example_env 0%nat)) = "20150830T123600Z"
  /\ dateStamp (signing example_args example_url (clock example_env 0%nat)) = "20150830".
Proof.
  split; [vm_compute; reflexivity|].
  split; [vm_compute; split; discriminate|].
  destruct (amzDate_compact example_env example_args 0%nat example_url
              ltac:(vm_compute; reflexivity))
    as (_ & _ & _ & _ & Hfour).
  destruct (Hfour ltac:(vm_compute; split; discriminate)) as (Hamz & _ & _ & _ & Hd).
  split; [rewrite Hamz | rewrite Hd]; vm_compute; reflexivity.
Defined.

(** Beyond the year 9999, which no clock of today reads, the ISO text
    starts with a sign and a six-digit year, and the fixed-width cut keeps
    its first fifteen characters behind the stripping. *)
Example amzDate_year_10000 :
  JS.toISOString year_10000 = "+010000-01-01T00:00:00.000Z"
  /\ amzDate (signing example_args example_url year_10000) = "+0100000101T000Z"
  /\ dateStamp (signing example_args example_url year_10000) = "+0100000"
  /\ all_chars JS.is_digit (dateStamp (signing example_args example_url year_10000)) = false
  /\ String.get 8 (amzDate (signing example_args example_url year_10000)) = Some "1"%char
  /\ match fst (buildAuthHeader (env_with example_config year_10000 (Resolved example_reply))
                  example_args 0%nat) with
     | Returned h => hdr_amzDate h
     | Thrown _ => ""
     end = "+0100000101T000Z".
Proof. vm_compute. repeat split. Qed.

(** ** The transport *)

Lemma handleApiError_throws (error : AxiosError) (n : nat) :
  exists e, handleApiError error n = (Thrown e, n).
Proof.
  unfold handleApiError.
  destruct (response error) as [[status data]|].
  - destruct ((status =? 401)%Z || (status =? 403)%Z); [eexists; reflexivity|].
    destruct (status =? 404)%Z; [eexists; reflexivity|].
    destruct (status =? 429)%Z; eexists; reflexivity.
  - destruct (request_sent error); eexists; reflexivity.
Qed.

Lemma server_message_spec (data : JS.value) :
  JS.to_string
    (JS.or_else (JS.get data "message")
       (JS.or_else (JS.get data "Message")
          (JS.or_else (JS.get data "error")
             (match JS.JSON_stringify data with
              | Some t => JS.JStr t
              | None => JS.JUndefined
              end))))
  = server_message data.
Proof.
  unfold server_message, JS.or_else.
  destruct (JS.truthy (JS.get data "message")); [reflexivity|].
  destruct (JS.truthy (JS.get data "Message")); [reflexivity|].
  destruct (JS.truthy (JS.get data "error")); [reflexivity|].
  destruct (JS.JSON_stringify data) as [txt|]; [|reflexivity].
  destruct (JS.truthy (JS.JStr txt)) eqn:Ht; [reflexivity|].
  cbn [JS.truthy] in Ht. apply negb_false_iff in Ht.
  apply String.eqb_eq in Ht. subst txt. reflexivity.
Qed.

(** One call of [request]: the clock is read once while signing; the
    result is axios's data, or what [handleApiError] throws. *)
Lemma request_run (env : Env) (c : Client) (method path : string) (data : JS.value)
  (t : nat) (r : AxiosRequest) :
  sent_request env c method path data t = Some r ->
  request env c method path data t
  = match axios env r with
    | Resolved d => (Returned d, S t)
    | Failed error =>
        match handleApiError error (S t) with
        | (Returned _, n) => (Returned JS.JUndefined, n)
        | (Thrown e, n) => (Thrown e, n)
        end
    end.
Proof.
  unfold sent_request, request, bind, new_URL.
  set (d := match data with JS.JUndefined => JS.JNull | _ => data end).
  set (args := mkAuthArgs _ _ _ _ _ _ _).
  destruct (parseURL env (url args)) as [u|] eqn:Hu.
  - rewrite (buildAuthHeader_run env args t u Hu). cbv beta iota.
    set (hdr := mkAuthHeader _ _). clearbody hdr.
    set (cfg := axios_config _ _ _ _). clearbody cfg.
    intros [= <-].
    destruct (axios env cfg) as [x|error]; [reflexivity|].
    unfold ret. destruct (handleApiError error (S t)) as [[x|e] n]; reflexivity.
  - rewrite (buildAuthHeader_invalid_url env args t Hu). cbv beta iota. discriminate.
Qed.

Lemma sent_request_parses (env : Env) (c : Client) (method path : string) (data : JS.value)
  (t : nat) :
  parseURL env (c_baseURL c ++ path) <> None ->
  exists r, sent_request env c method path data t = Some r.
Proof.
  intros Hp. unfold sent_request.
  set (d := match data with JS.JUndefined => JS.JNull | _ => data end).
  set (args := mkAuthArgs _ _ _ _ _ _ _).
  destruct (parseURL env (url args)) as [u|] eqn:Hu; [|contradiction].
  rewrite (buildAuthHeader_run env args t u Hu). cbv beta iota. eexists. reflexivity.
Qed.

(** One call of [request] whose URL parses: the clock is read once, axios
    is called with the request that was signed, and the call ends with the
    data axios resolves with, or with what [handleApiError] throws. *)
Lemma request_calls_axios (env : Env) (c : Client) (method path : string) (data : JS.value)
  (t : nat) (u : URL) :
  parseURL env (c_baseURL c ++ path) = Some u ->
  let s := signing (request_args c method path data) u (clock env t) in
  request env c method path data t
  = match axios env
            (mkAxiosRequest method (c_baseURL c ++ path)
               (JS.or_else (request_data data) JS.JUndefined)
               [ ("Authorization", authorization s);
                 ("X-Amz-Date", amzDate s);
                 ("Content-Type", "application/json");
                 ("Accept", "application/json") ]) with
    | Resolved d => (Returned d, S t)
    | Failed error => handleApiError error (S t)
    end.
Proof.
  intros Hu s. unfold request, bind.
  fold (request_data data). fold (request_args c method path data).
  rewrite (buildAuthHeader_run env (request_args c method path data) t u Hu).
  fold s. cbv beta iota. unfold axios_config. cbn [hdr_authorization hdr_amzDate].
  set (cfg := mkAxiosRequest _ _ _ _). clearbody cfg.
  destruct (axios env cfg) as [x|error]; [reflexivity|].
  destruct (handleApiError_throws error (S t)) as [e He]. rewrite He. reflexivity.
Qed.

(** C5. [handleApiError] throws on every axios error, once per call: 401
    and 403 give [AuthenticationFailed], 404 [NotFound], 429 [RateLimited],
    any other status [ApiError] with the status and the server's message, no
    response [NetworkError]; the five are distinct values; and a call of
    [request] whose axios call fails throws that error and returns nothing. *)
Theorem error_mapping (error : AxiosError) (n : nat) :
  (exists e, handleApiError error n = (Thrown e, n))
  /\ (forall status data,
         response error = Some (status, data) ->
         (status = 401%Z \/ status = 403%Z ->
          handleApiError error n = (Thrown AuthenticationFailed, n))
         /\ (status = 404%Z -> handleApiError error n = (Thrown NotFound, n))
         /\ (status = 429%Z -> handleApiError error n = (Thrown RateLimited, n))
         /\ (status <> 401%Z -> status <> 403%Z -> status <> 404%Z -> status <> 429%Z ->
             handleApiError error n = (Thrown (ApiError status (server_message data)), n)))
  /\ (response error = None -> request_sent error = true ->
      handleApiError error n = (Thrown NetworkError, n))
  /\ (forall env c method path data t r,
         sent_request env c method path data t = Some r ->
         axios env r = Failed error ->
         exists e,
           request env c method path data t = (Thrown e, S t)
           /\ handleApiError error (S t) = (Thrown e, S t))
  /\ (AuthenticationFailed <> NotFound /\ AuthenticationFailed <> RateLimited
      /\ AuthenticationFailed <> NetworkError /\ NotFound <> RateLimited
      /\ NotFound <> NetworkError /\ RateLimited <> NetworkError
      /\ forall status message,
           ApiError status message <> AuthenticationFailed
           /\ ApiError status message <> NotFound
           /\ ApiError status message <> RateLimited
           /\ ApiError status message <> NetworkError).
Proof.
  split; [apply handleApiError_throws|].
  split.
  { intros status data Hr. unfold handleApiError. rewrite Hr.
    split; [|split; [|split]].
    - intros [-> | ->]; reflexivity.
    - intros ->. reflexivity.
    - intros ->. reflexivity.
    - intros H1 H2 H3 H4.
      apply Z.eqb_neq in H1, H2, H3, H4. rewrite H1, H2, H3, H4.
      cbn [orb]. rewrite server_message_spec. reflexivity. }
  split.
  { intros Hr Hs. unfold handleApiError. rewrite Hr, Hs. reflexivity. }
  split.
  { intros env c method path data t r Hsent Hax.
    rewrite (request_run env c method path data t r Hsent), Hax.
    destruct (handleApiError_throws error (S t)) as [e He].
    exists e. rewrite He. split; reflexivity. }
  unfold AuthenticationFailed, NotFound, RateLimited, NetworkError, ApiError.
  repeat match goal with
         | |- _ /\ _ => split
         | |- forall _, _ => intro
         | |- _ <> _ => cbn [String.append]; discriminate
         end.
Qed.

(** Without a message field the reply itself, as JSON text, is the message. *)
Example server_message_fallback :
  handleApiError (mkAxiosError (Some (502, JS.JObj [("code", JS.JNum 7)])) true) 0%nat
  = (Thrown (ApiError 502 ("{" ++ quoted "code" ++ ":7}")), 0%nat).
Proof. vm_compute. reflexivity. Qed.

Lemma error_mapping_witness :
  fst (listQueues (env_with example_config example_instant (Failed forbidden)) 0%nat)
  = Thrown AuthenticationFailed
  /\ fst (listQueues (env_with example_config example_instant (Failed server_error)) 0%nat)
     = Thrown (Error "AWS Batch Error (500): boom")
  /\ handleApiError unreachable 1%nat = (Thrown NetworkError, 1%nat).
Proof.
  split; [vm_compute; reflexivity|].
  split; [vm_compute; reflexivity|].
  exact (proj1 (proj2 (proj2 (error_mapping unreachable 1%nat))) eq_refl eq_refl).
Defined.

(** ** The resource operations *)







(** C7. Submitting job [my-job] to queue [my-queue] with definition
    [my-def] and no optional field builds an object of exactly those three
    properties, written
    [{"jobName":"my-job","jobQueue":"my-queue","jobDefinition":"my-def"}]:
    it has no [parameters] and no [containerOverrides] property, as for
    any three values when the optional ones are undefined.  That text is the
    payload the signer hashes and that object is the data handed to axios. *)
Theorem submit_job_body :
  submitJob_body my_job
  = JS.JObj [ ("jobName", JS.JStr "my-job"); ("jobQueue", JS.JStr "my-queue");
              ("jobDefinition", JS.JStr "my-def") ]
  /\ (forall jobName jobQueue jobDefinition,
         submitJob_body
           (mkSubmitJobArgs jobName jobQueue jobDefinition JS.JUndefined JS.JUndefined)
         = JS.JObj [ ("jobName", jobName); ("jobQueue", jobQueue);
                     ("jobDefinition", jobDefinition) ])
  /\ JS.JSON_stringify (submitJob_body my_job) = Some my_job_text
  /\ wire_body (submitJob_body my_job) = Some my_job_text
  /\ (forall env t,
         submitJob env my_job t
         = request env (getBatchClient env) "POST" "/v1/submitjob"
             (JS.JObj [ ("jobName", JS.JStr "my-job"); ("jobQueue", JS.JStr "my-queue");
                        ("jobDefinition", JS.JStr "my-def") ]) t)
  /\ (forall env t r,
         sent_request env (getBatchClient env) "POST" "/v1/submitjob" (submitJob_body my_job) t
         = Some r ->
         ax_method r = "POST"
         /\ ax_url r = c_baseURL (getBatchClient env) ++ "/v1/submitjob"
         /\ ax_data r = JS.JObj [ ("jobName", JS.JStr "my-job"); ("jobQueue", JS.JStr "my-queue");
                                  ("jobDefinition", JS.JStr "my-def") ])
  /\ (forall env t u,
         parseURL env (c_baseURL (getBatchClient env) ++ "/v1/submitjob") = Some u ->
         exists r,
           ax_method r = "POST"
           /\ ax_url r = c_baseURL (getBatchClient env) ++ "/v1/submitjob"
           /\ ax_data r = JS.JObj [ ("jobName", JS.JStr "my-job");
                                    ("jobQueue", JS.JStr "my-queue");
                                    ("jobDefinition", JS.JStr "my-def") ]
           /\ submitJob env my_job t
              = match axios env r with
                | Resolved d => (Returned d, S t)
                | Failed error => handleApiError error (S t)
                end)
  /\ fst (submitJob echo_env my_job 0%nat)
     = Returned (JS.JObj [ ("jobName", JS.JStr "my-job"); ("jobQueue", JS.JStr "my-queue");
                           ("jobDefinition", JS.JStr "my-def") ]).
Proof.
  split; [reflexivity|]. split; [reflexivity|].
  split; [vm_compute; reflexivity|]. split; [vm_compute; reflexivity|].
  split.
  { intros env t. unfold submitJob, bind, ret.
    change (submitJob_body my_job)
      with (JS.JObj [ ("jobName", JS.JStr "my-job"); ("jobQueue", JS.JStr "my-queue");
                      ("jobDefinition", JS.JStr "my-def") ]).
    destruct (request _ _ _ _ _ t) as [[d|e] n]; reflexivity. }
  split.
  { intros env t r. unfold sent_request.
    destruct (buildAuthHeader _ _ t) as [[auth|e] n]; [|discriminate].
    intros [= <-]. repeat split. }
  split; [|vm_compute; reflexivity].
  intros env t u Hu.
  pose proof (request_calls_axios env (getBatchClient env) "POST" "/v1/submitjob"
                (submitJob_body my_job) t u Hu) as Hrun.
  cbv zeta in Hrun.
  set (r := mkAxiosRequest _ _ _ _) in Hrun.
  exists r. split; [reflexivity|]. split; [reflexivity|]. split; [reflexivity|].
  clearbody r. unfold submitJob, bind. rewrite Hrun.
  destruct (axios env r) as [d|error]; [reflexivity|].
  destruct (handleApiError_throws error (S t)) as [e He]. rewrite He. reflexivity.
Qed.

Lemma submit_job_body_witness :
  exists r,
    sent_request echo_env (getBatchClient echo_env) "POST" "/v1/submitjob"
      (submitJob_body my_job) 0%nat = Some r
    /\ ax_url r = "https://batch.us-east-1.amazonaws.com/v1/submitjob"
    /\ ax_data r = JS.JObj [ ("jobName", JS.JStr "my-job"); ("jobQueue", JS.JStr "my-queue");
                             ("jobDefinition", JS.JStr "my-def") ].
Proof.
  destruct (sent_request_parses echo_env (getBatchClient echo_env) "POST" "/v1/submitjob"
              (submitJob_body my_job) 0%nat ltac:(vm_compute; discriminate)) as [r Hr].
  exists r. split; [exact Hr|].
  destruct submit_job_body as (_ & _ & _ & _ & _ & H & _).
  destruct (H echo_env 0%nat r Hr) as (_ & Hurl & Hdata).
  split; [rewrite Hurl; reflexivity | exact Hdata].
Defined.

(** C9. Two runs of the signer on the same arguments, whose URL parses
    alike and whose clock readings are the same instant, return the same
    authorization header value and the same timestamp, whatever else their
    environments hold. *)
Theorem signing_deterministic (env1 env2 : Env) (a : AuthArgs) (t1 t2 : nat) :
  parseURL env1 (url a) = parseURL env2 (url a) ->
  clock env1 t1 = clock env2 t2 ->
  fst (buildAuthHeader env1 a t1) = fst (buildAuthHeader env2 a t2)
  /\ forall h1 h2,
       fst (buildAuthHeader env1 a t1) = Returned h1 ->
       fst (buildAuthHeader env2 a t2) = Returned h2 ->
       hdr_authorization h1 = hdr_authorization h2 /\ hdr_amzDate h1 = hdr_amzDate h2.
Proof.
  intros Hu Hc.
  assert (fst (buildAuthHeader env1 a t1) = fst (buildAuthHeader env2 a t2)) as H.
  { destruct (parseURL env2 (url a)) as [u|] eqn:Hu2.
    - rewrite (buildAuthHeader_run env1 a t1 u Hu), (buildAuthHeader_run env2 a t2 u Hu2).
      cbn [fst]. now rewrite Hc.
    - now rewrite (buildAuthHeader_invalid_url env1 a t1 Hu),
        (buildAuthHeader_invalid_url env2 a t2 Hu2). }
  split; [exact H|].
  intros h1 h2 H1 H2. rewrite H, H2 in H1. injection H1 as ->. split; reflexivity.
Qed.

Lemma signing_deterministic_witness :
  parseURL example_env (url example_args) = parseURL other_env (url example_args)
  /\ clock example_env 0%nat = clock other_env 5%nat
  /\ fst (buildAuthHeader example_env example_args 0%nat)
     = fst (buildAuthHeader other_env example_args 5%nat).
Proof.
  split; [reflexivity|]. split; [reflexivity|].
  exact (proj1 (signing_deterministic example_env other_env example_args 0%nat 5%nat
                  eq_refl eq_refl)).
Defined.

(** C10. [describeDefinitions] makes one GET request, and the path of
    that request is [/v1/jobdefinitions?jobDefinitionName=] followed by the
    first name alone, URI-encoded; on an empty list the name reads
    [undefined].  When the URL parses, axios is called with that URL and no
    data, and the call ends with the [jobDefinitions] of the reply or with
    the error of the transport.  The names after the first change neither
    the request nor the result. *)
Theorem describeDefinitions_first_only (env : Env) (name : string) (rest : list string)
  (t : nat) :
  describeDefinitions env (name :: rest) t
  = (data <- request env (getBatchClient env) "GET"
               ("/v1/jobdefinitions?jobDefinitionName=" ++ JS.encodeURIComponent name)
               JS.JUndefined ;;
     ret (JS.or_else (JS.get data "jobDefinitions") (JS.JArr []))) t
  /\ describeDefinitions env [] t
     = (data <- request env (getBatchClient env) "GET"
                  "/v1/jobdefinitions?jobDefinitionName=undefined" JS.JUndefined ;;
        ret (JS.or_else (JS.get data "jobDefinitions") (JS.JArr []))) t
  /\ (forall u,
        parseURL env (c_baseURL (getBatchClient env)
                      ++ "/v1/jobdefinitions?jobDefinitionName=" ++ JS.encodeURIComponent name)
        = Some u ->
        exists r,
          ax_method r = "GET"
          /\ ax_url r = c_baseURL (getBatchClient env)
                        ++ "/v1/jobdefinitions?jobDefinitionName=" ++ JS.encodeURIComponent name
          /\ ax_data r = JS.JUndefined
          /\ describeDefinitions env (name :: rest) t
             = match axios env r with
               | Resolved d => (Returned (unwrap "jobDefinitions" d), S t)
               | Failed error => handleApiError error (S t)
               end)
  /\ describeDefinitions_path (name :: rest)
     = "/v1/jobdefinitions?jobDefinitionName=" ++ JS.encodeURIComponent name
  /\ describeDefinitions env (name :: rest) t = describeDefinitions env [name] t.
Proof.
  split; [reflexivity|]. split; [reflexivity|].
  split; [|split; reflexivity].
  intros u Hu.
  pose proof (request_calls_axios env (getBatchClient env) "GET"
                ("/v1/jobdefinitions?jobDefinitionName=" ++ JS.encodeURIComponent name)
                JS.JUndefined t u Hu) as Hrun.
  cbv zeta in Hrun.
  set (r := mkAxiosRequest _ _ _ _) in Hrun.
  exists r. split; [reflexivity|]. split; [reflexivity|]. split; [reflexivity|].
  clearbody r.
  change (describeDefinitions env (name :: rest) t)
    with ((data <- request env (getBatchClient env) "GET"
                     ("/v1/jobdefinitions?jobDefinitionName=" ++ JS.encodeURIComponent name)
                     JS.JUndefined ;;
           ret (JS.or_else (JS.get data "jobDefinitions") (JS.JArr []))) t).
  unfold bind. rewrite Hrun.
  destruct (axios env r) as [d|error]; [reflexivity|].
  destruct (handleApiError_throws error (S t)) as [e He]. rewrite He. reflexivity.
Qed.

Lemma describeDefinitions_first_only_witness :
  parseURL example_env
    (c_baseURL (getBatchClient example_env)
     ++ "/v1/jobdefinitions?jobDefinitionName=" ++ JS.encodeURIComponent "my def/1")
  = Some (mkURL "batch.us-east-1.amazonaws.com" "/v1/jobdefinitions"
            (Some "jobDefinitionName=my%20def%2F1"))
  /\ exists r,
       ax_url r
       = "https://batch.us-east-1.amazonaws.com/v1/jobdefinitions?jobDefinitionName=my%20def%2F1"
       /\ describeDefinitions example_env ["my def/1"; "other"] 0%nat
          = match axios example_env r with
            | Resolved d => (Returned (unwrap "jobDefinitions" d), 1%nat)
            | Failed error => handleApiError error 1%nat
            end.
Proof.
  split; [vm_compute; reflexivity|].
  destruct (describeDefinitions_first_only example_env "my def/1" ["other"] 0%nat)
    as (_ & _ & H & _).
  destruct (H (mkURL "batch.us-east-1.amazonaws.com" "/v1/jobdefinitions"
                 (Some "jobDefinitionName=my%20def%2F1"))
              ltac:(vm_compute; reflexivity))
    as (r & _ & Hurl & _ & Hrun).
  exists r. split; [rewrite Hurl; vm_compute; reflexivity | exact Hrun].
Defined.

Example describeDefinitions_path_encoded :
  describeDefinitions_path ["my def/1"; "other"]
  = "/v1/jobdefinitions?jobDefinitionName=my%20def%2F1".
Proof. vm_compute. reflexivity. Qed.

Example describeDefinitions_path_empty :
  describeDefinitions_path [] = "/v1/jobdefinitions?jobDefinitionName=undefined".
Proof. vm_compute. reflexivity. Qed.


(** ** The client and what it sends *)

(** X1. The endpoint of the client is [https://batch.<region>.amazonaws.com]
    for the very region it signs with; that region is the configured one
    when it is set and not empty, [us-east-1] otherwise, and never empty. *)
Theorem getBatchClient_endpoint (env : Env) :
  let c := getBatchClient env in
  c_baseURL c = "https://batch." ++ c_region c ++ ".amazonaws.com"
  /\ c_region c <> ""
  /\ (forall r, getConfig env "region" = Some r -> r <> "" -> c_region c = r)
  /\ (getConfig env "region" = None \/ getConfig env "region" = Some "" ->
      c_region c = "us-east-1").
Proof.
  cbv zeta. unfold getBatchClient. cbn [c_baseURL c_region].
  split; [reflexivity|].
  destruct (getConfig env "region") as [r|] eqn:Hr; cbn [str_or].
  - destruct (String.eqb_spec r "") as [->|Hne].
    + split; [discriminate|]. split; [intros r' [= <-] H; congruence|]. reflexivity.
    + split; [exact Hne|]. split; [intros r' [= <-] _; reflexivity|].
      intros [H|[= H]]; [discriminate | congruence].
  - split; [discriminate|]. split; [discriminate|]. reflexivity.
Qed.

Section OneRequest.

Variables (env : Env) (c : Client) (method path : string) (data : JS.value) (t : nat) (u : URL).

Hypothesis parsed : parseURL env (c_baseURL c ++ path) = Some u.

Lemma sent_request_signed :
  sent_request env c method path data t
  = Some (axios_config method (c_baseURL c ++ path) (request_data data)
            (mkAuthHeader
               (authorization (signing (request_args c method path data) u (clock env t)))
               (amzDate (signing (request_args c method path data) u (clock env t))))).
Proof.
  unfold sent_request. fold (request_data data). fold (request_args c method path data).
  rewrite (buildAuthHeader_run env (request_args c method path data) t u parsed). reflexivity.
Qed.

Lemma request_reads_clock_once : snd (request env c method path data t) = S t.
Proof.
  rewrite (request_run env c method path data t _ sent_request_signed).
  destruct (axios env _) as [x|error]; [reflexivity|].
  destruct (handleApiError_throws error (S t)) as [e He]. rewrite He. reflexivity.
Qed.

(** X2. A call of [request] whose URL parses calls axios once, with what
    it signed: the method and the URL it signed, the data whose JSON text
    it hashed, an [Authorization] header that is the signer's value and an
    [X-Amz-Date] header that is the timestamp inside the signed header
    block; the call ends with the data axios resolves with, or with what
    [handleApiError] throws for the error axios rejects with.  The scope
    names the client's region and the service [batch]; and the clock is
    read once in the call, whether axios resolves or fails. *)
Theorem request_sends_what_it_signs :
  let s := signing (request_args c method path data) u (clock env t) in
  request env c method path data t
  = match axios env
            (mkAxiosRequest method (c_baseURL c ++ path)
               (JS.or_else (request_data data) JS.JUndefined)
               [ ("Authorization", authorization s);
                 ("X-Amz-Date", amzDate s);
                 ("Content-Type", "application/json");
                 ("Accept", "application/json") ]) with
    | Resolved d => (Returned d, S t)
    | Failed error => handleApiError error (S t)
    end
  /\ request_args c method path data
     = mkAuthArgs method (c_baseURL c ++ path) (wire_body (request_data data)) "batch"
         (c_region c) (c_accessKeyId c) (c_secretAccessKey c)
  /\ canonicalHeaders s = "host:" ++ host u ++ JS.nl ++ "x-amz-date:" ++ amzDate s ++ JS.nl
  /\ payloadHash s
     = SHA256.hexdigest (if JS.truthy (request_data data)
                         then match JS.JSON_stringify (request_data data) with
                              | Some txt => txt
                              | None => ""
                              end
                         else "")
  /\ credentialScope s = dateStamp s ++ "/" ++ c_region c ++ "/batch/aws4_request"
  /\ snd (request env c method path data t) = S t.
Proof.
  intros s.
  split; [exact (request_calls_axios env c method path data t u parsed)|].
  split; [reflexivity|].
  split; [reflexivity|].
  split.
  { subst s. unfold signing. cbn [payloadHash]. unfold request_args. cbn [body]. unfold wire_body.
    destruct (JS.truthy (request_data data)); [|reflexivity].
    destruct (JS.JSON_stringify (request_data data)) as [txt|]; [|reflexivity].
    cbn [str_or]. destruct (String.eqb_spec txt "") as [->|]; reflexivity. }
  split; [|exact request_reads_clock_once].
  subst s. unfold signing. cbn [credentialScope dateStamp amzDate]. unfold request_args.
  cbn [region service]. cbn [String.append]. reflexivity.
Qed.

(** X6. An axios error that carries neither a response nor a request is
    thrown again as it is: the call of [request] fails with that very
    error, after the one reading of the clock. *)
Theorem request_rethrows (r : AxiosRequest) (error : AxiosError) :
  sent_request env c method path data t = Some r ->
  axios env r = Failed error ->
  response error = None ->
  request_sent error = false ->
  request env c method path data t = (Thrown (Raised error), S t).
Proof.
  intros Hr Hax Hresp Hreq.
  rewrite (request_run env c method path data t r Hr), Hax.
  unfold handleApiError. rewrite Hresp, Hreq. reflexivity.
Qed.

End OneRequest.


Lemma decimal_nonempty (n : Z) : JS.decimal n <> "".
Proof.
  unfold JS.decimal.
  destruct (Z.to_int n) as [d|d]; [|discriminate].
  destruct d; discriminate.
Qed.

Lemma JSON_stringify_nonempty (v : JS.value) (txt : string) :
  JS.JSON_stringify v = Some txt -> txt <> "".
Proof.
  destruct v as [| |b|n|s|items|props]; cbn [JS.JSON_stringify].
  - discriminate.
  - intros [= <-]. discriminate.
  - destruct b; intros [= <-]; discriminate.
  - intros [= <-]. apply decimal_nonempty.
  - intros [= <-]. unfold JS.quote, JS.dquote. cbn [String.append]. discriminate.
  - intros [= <-]. cbn [String.append]. discriminate.
  - intros [= <-]. cbn [String.append]. discriminate.
Qed.

(** X3. The body [request] signs is always a string, and it is the empty
    string exactly when the data is falsy, which is exactly when axios is
    handed no data; for truthy data the signed body is its JSON text and the
    data goes to axios as it is. *)
Theorem signed_body_empty_iff_no_data (data : JS.value) :
  exists txt,
    wire_body data = Some txt
    /\ (txt = "" <-> JS.truthy data = false)
    /\ (JS.or_else data JS.JUndefined = JS.JUndefined <-> JS.truthy data = false)
    /\ (JS.truthy data = true ->
        JS.JSON_stringify data = Some txt /\ JS.or_else data JS.JUndefined = data).
Proof.
  unfold wire_body, JS.or_else.
  destruct (JS.truthy data) eqn:Ht.
  - destruct (JS.JSON_stringify data) as [txt|] eqn:Hs.
    + exists txt. split; [reflexivity|].
      split; [split; [intros ->; now apply JSON_stringify_nonempty in Hs | discriminate]|].
      split; [|intros _; split; reflexivity].
      split; [|discriminate]. intros ->. discriminate.
    + destruct data as [| |[]| | | |]; cbn [JS.truthy JS.JSON_stringify] in Ht, Hs; congruence.
  - exists "". split; [reflexivity|].
    split; [split; reflexivity|]. split; [split; reflexivity | discriminate].
Qed.

(** X4. When the URL of a request does not parse, [request] throws the
    parser's [TypeError] before the clock is read and before anything is
    handed to axios. *)
Theorem request_invalid_url (env : Env) (c : Client) (method path : string) (data : JS.value)
  (t : nat) :
  parseURL env (c_baseURL c ++ path) = None ->
  request env c method path data t = (Thrown (TypeError "Invalid URL"), t)
  /\ sent_request env c method path data t = None.
Proof.
  intros Hu. unfold request, sent_request, bind.
  set (d := match data with JS.JUndefined => JS.JNull | _ => data end).
  set (args := mkAuthArgs _ _ _ _ _ _ _).
  rewrite (buildAuthHeader_invalid_url env args t Hu). split; reflexivity.
Qed.

Lemma request_invalid_url_witness :
  parseURL unparsing_env (c_baseURL (getBatchClient unparsing_env) ++ "/v1/jobqueues") = None
  /\ listQueues unparsing_env 0%nat = (Thrown (TypeError "Invalid URL"), 0%nat).
Proof.
  split; [reflexivity|].
  unfold listQueues, bind.
  rewrite (proj1 (request_invalid_url unparsing_env (getBatchClient unparsing_env) "GET"
                    "/v1/jobqueues" JS.JUndefined 0%nat eq_refl)).
  reflexivity.
Defined.

(** X5. When the body of an error reply is not an object (a string, a
    number, an array, [null], or no body at all), the message of the error
    is the JSON text of that body, so a string body appears between double
    quotes; with no body the message reads [undefined]. *)
Theorem error_body_not_object (status : Z) (data : JS.value) (sent : bool) (n : nat) :
  status <> 401%Z -> status <> 403%Z -> status <> 404%Z -> status <> 429%Z ->
  (forall props, data <> JS.JObj props) ->
  handleApiError (mkAxiosError (Some (status, data)) sent) n
  = (Thrown (Error ("AWS Batch Error (" ++ JS.decimal status ++ "): "
                    ++ match JS.JSON_stringify data with
                       | Some txt => txt
                       | None => "undefined"
                       end)), n).
Proof.
  intros H1 H2 H3 H4 Hobj.
  unfold handleApiError. cbn [response].
  apply Z.eqb_neq in H1, H2, H3, H4. rewrite H1, H2, H3, H4. cbn [orb].
  rewrite server_message_spec. unfold server_message.
  assert (forall k, JS.get data k = JS.JUndefined) as Hget.
  { intros k. destruct data; try reflexivity. now elim (Hobj props). }
  rewrite !Hget. reflexivity.
Qed.

Lemma error_body_not_object_witness :
  handleApiError (mkAxiosError (Some (502, JS.JStr "Bad Gateway")) true) 0%nat
  = (Thrown (Error ("AWS Batch Error (502): " ++ quoted "Bad Gateway")), 0%nat).
Proof.
  rewrite (error_body_not_object 502 (JS.JStr "Bad Gateway") true 0%nat
             ltac:(discriminate) ltac:(discriminate) ltac:(discriminate) ltac:(discriminate)
             ltac:(discriminate)).
  reflexivity.
Defined.


Lemma request_sends_what_it_signs_witness :
  parseURL (mirror_env example_config)
    (c_baseURL (getBatchClient (mirror_env example_config)) ++ "/v1/jobqueues")
  = Some (mkURL "batch.us-east-1.amazonaws.com" "/v1/jobqueues" None)
  /\ request (mirror_env example_config) (getBatchClient (mirror_env example_config))
       "GET" "/v1/jobqueues" JS.JUndefined 0%nat
     = (Returned
          (JS.JObj
             [ ("method", JS.JStr "GET");
               ("url", JS.JStr "https://batch.us-east-1.amazonaws.com/v1/jobqueues");
               ("data", JS.JUndefined);
               ("headers",
                JS.JObj
                  [ ("Authorization",
                     JS.JStr
                       ("AWS4-HMAC-SHA256 "
                        ++ "Credential=AKIDEXAMPLE/20150830/us-east-1/batch/aws4_request, "
                        ++ "SignedHeaders=host;x-amz-date, "
                        ++ "Signature=ab3f24b858b29ed5ce9530c33a064d99d77dc145f63acd5f798f0f521c882b51"));
                    ("X-Amz-Date", JS.JStr "20150830T123600Z");
                    ("Content-Type", JS.JStr "application/json");
                    ("Accept", JS.JStr "application/json") ]) ]), 1%nat).
Proof.
  split; [reflexivity|].
  destruct (request_sends_what_it_signs (mirror_env example_config)
              (getBatchClient (mirror_env example_config)) "GET"
              "/v1/jobqueues" JS.JUndefined 0%nat
              (mkURL "batch.us-east-1.amazonaws.com" "/v1/jobqueues" None) eq_refl)
    as (Hs & _).
  rewrite Hs. vm_compute. reflexivity.
Defined.

Lemma request_rethrows_witness :
  fst (listQueues (env_with example_config example_instant (Failed setup_error)) 0%nat)
  = Thrown (Raised setup_error).
Proof.
  destruct (sent_request_parses (env_with example_config example_instant (Failed setup_error))
              (getBatchClient (env_with example_config example_instant (Failed setup_error)))
              "GET" "/v1/jobqueues" JS.JUndefined 0%nat ltac:(vm_compute; discriminate))
    as [r Hr].
  unfold listQueues, bind.
  rewrite (request_rethrows _ _ _ _ _ _ r setup_error Hr eq_refl eq_refl eq_refl).
  reflexivity.
Defined.

(** ** The bodies and paths of the operations *)

Lemma bind_ret (m : M JS.value) (t : nat) : (data <- m ;; ret data) t = m t.
Proof. unfold bind, ret. destruct (m t) as [[d|e] n]; reflexivity. Qed.

(** X7. [terminateJob] always sends a reason that is truthy: the caller's
    when that is truthy, [Terminated via CLI] when it is absent, empty or
    otherwise falsy; the job id is sent as given and the reply is returned
    as it is. *)
Theorem terminateJob_reason (jobId reason : JS.value) :
  exists r,
    terminateJob_body jobId reason = JS.JObj [("jobId", jobId); ("reason", r)]
    /\ JS.truthy r = true
    /\ (JS.truthy reason = true -> r = reason)
    /\ (JS.truthy reason = false -> r = JS.JStr "Terminated via CLI")
    /\ forall env t,
         terminateJob env jobId reason t
         = request env (getBatchClient env) "POST" "/v1/terminatejob"
             (JS.JObj [("jobId", jobId); ("reason", r)]) t.
Proof.
  exists (JS.or_else reason (JS.JStr "Terminated via CLI")).
  split; [reflexivity|].
  unfold JS.or_else.
  destruct (JS.truthy reason) eqn:Hr.
  - split; [exact Hr|]. split; [reflexivity|]. split; [discriminate|].
    intros env t. unfold terminateJob, JS.or_else. rewrite Hr. apply bind_ret.
  - split; [reflexivity|]. split; [discriminate|]. split; [reflexivity|].
    intros env t. unfold terminateJob, JS.or_else. rewrite Hr. apply bind_ret.
Qed.

(** X8. Every property [listJobs] sends holds a truthy value: a queue, a
    status or a limit that is falsy is left out, not sent as null or zero;
    the properties come in the order queue, status, limit; and a limit that
    is not given is sent as 50. *)
Theorem listJobs_sends_truthy_fields (a : ListJobsArgs) :
  let limit := match lj_maxResults a with JS.JUndefined => JS.JNum 50 | v => v end in
  all_truthy (listJobs_body a)
  /\ keys (listJobs_body a)
     = ((if JS.truthy (lj_jobQueue a) then ["jobQueue"] else [])
        ++ (if JS.truthy (lj_jobStatus a) then ["jobStatus"] else [])
        ++ (if JS.truthy limit then ["maxResults"] else []))%list
  /\ (JS.truthy (lj_jobQueue a) = true ->
      JS.lookup "jobQueue" (listJobs_body a) = lj_jobQueue a)
  /\ (JS.truthy (lj_jobStatus a) = true ->
      JS.lookup "jobStatus" (listJobs_body a) = lj_jobStatus a)
  /\ (JS.truthy limit = true -> JS.lookup "maxResults" (listJobs_body a) = limit)
  /\ (lj_maxResults a = JS.JUndefined ->
      JS.lookup "maxResults" (listJobs_body a) = JS.JNum 50)
  /\ forall env t,
       listJobs env a t
       = (d <- request env (getBatchClient env) "POST" "/v1/listjobs"
                 (JS.JObj (listJobs_body a)) ;;
          ret (JS.or_else (JS.get d "jobSummaryList") (JS.JArr []))) t.
Proof.
  intros limit.
  assert (lj_maxResults a = JS.JUndefined -> limit = JS.JNum 50) as Hdef
    by (intros H; subst limit; now rewrite H).
  split; [|split; [|split; [|split; [|split; [|split; [|intros env t; reflexivity]]]]]].
  all: unfold listJobs_body, all_truthy, keys; fold limit; unfold assign_if.
  all: destruct (JS.truthy (lj_jobQueue a)) eqn:Hq, (JS.truthy (lj_jobStatus a)) eqn:Hs,
         (JS.truthy limit) eqn:Hl;
       cbn [List.app List.map fst JS.lookup String.eqb Ascii.eqb Bool.eqb].
  all: try reflexivity.
  all: try (repeat (apply Forall_cons; [cbn [snd]; assumption|]); apply Forall_nil).
  all: try (intros _; reflexivity).
  all: try discriminate.
  all: intros Hu; specialize (Hdef Hu); rewrite Hdef in *; try reflexivity; discriminate.
Qed.


Lemma listJobs_sends_truthy_fields_witness :
  JS.JSON_stringify (JS.JObj (listJobs_body (mkListJobsArgs (JS.JStr "q") (JS.JStr "") JS.JUndefined)))
  = Some ("{" ++ quoted "jobQueue" ++ ":" ++ quoted "q" ++ "," ++ quoted "maxResults" ++ ":50}")
  /\ JS.lookup "maxResults"
       (listJobs_body (mkListJobsArgs (JS.JStr "q") (JS.JStr "") JS.JUndefined))
     = JS.JNum 50.
Proof.
  split; [vm_compute; reflexivity|].
  destruct (listJobs_sends_truthy_fields
              (mkListJobsArgs (JS.JStr "q") (JS.JStr "") JS.JUndefined))
    as (_ & _ & _ & _ & _ & H & _).
  exact (H eq_refl).
Defined.

(** X9. [createQueue] always sends four properties, and the state, the
    priority and the compute environment order it sends are truthy: each
    is the caller's when that is truthy and the default ([ENABLED], 1, the
    empty array) otherwise, so a priority of 0 is sent as 1.  The reply is
    returned as it is. *)
Theorem createQueue_defaults (a : CreateQueueArgs) :
  exists state priority order,
    createQueue_body a
    = JS.JObj [ ("jobQueueName", cq_queueName a); ("state", state); ("priority", priority);
                ("computeEnvironmentOrder", order) ]
    /\ (JS.truthy state = true /\ JS.truthy priority = true /\ JS.truthy order = true)
    /\ (state = if JS.truthy (cq_state a) then cq_state a else JS.JStr "ENABLED")
    /\ (priority = if JS.truthy (cq_priority a) then cq_priority a else JS.JNum 1)
    /\ (order = if JS.truthy (cq_computeEnvironmentOrder a)
                then cq_computeEnvironmentOrder a else JS.JArr [])
    /\ (cq_priority a = JS.JNum 0 -> priority = JS.JNum 1)
    /\ forall env t,
         createQueue env a t
         = request env (getBatchClient env) "POST" "/v1/createjobqueue" (createQueue_body a) t.
Proof.
  exists (JS.or_else (cq_state a) (JS.JStr "ENABLED")),
         (JS.or_else (cq_priority a) (JS.JNum 1)),
         (JS.or_else (cq_computeEnvironmentOrder a) (JS.JArr [])).
  split; [reflexivity|].
  split.
  { unfold JS.or_else.
    destruct (JS.truthy (cq_state a)) eqn:H1, (JS.truthy (cq_priority a)) eqn:H2,
      (JS.truthy (cq_computeEnvironmentOrder a)) eqn:H3; repeat split; assumption || reflexivity. }
  split; [reflexivity|]. split; [reflexivity|]. split; [reflexivity|].
  split; [intros H; unfold JS.or_else; rewrite H; reflexivity|].
  intros env t. unfold createQueue. apply bind_ret.
Qed.

(** X10. [updateQueue] sends the priority whenever it is not [undefined],
    also when it is 0 or [null], but sends the state only when it is truthy;
    the queue comes first, then the state, then the priority. *)
Theorem updateQueue_fields (a : UpdateQueueArgs) :
  keys (updateQueue_body a)
  = ("jobQueue"
     :: (if JS.truthy (uq_state a) then ["state"] else [])
     ++ (match uq_priority a with JS.JUndefined => [] | _ => ["priority"] end))%list
  /\ JS.lookup "jobQueue" (updateQueue_body a) = uq_queueName a
  /\ JS.lookup "priority" (updateQueue_body a) = uq_priority a
  /\ (JS.truthy (uq_state a) = true -> JS.lookup "state" (updateQueue_body a) = uq_state a)
  /\ (JS.truthy (uq_state a) = false -> JS.lookup "state" (updateQueue_body a) = JS.JUndefined)
  /\ forall env t,
       updateQueue env a t
       = request env (getBatchClient env) "POST" "/v1/updatejobqueue"
           (JS.JObj (updateQueue_body a)) t.
Proof.
  split; [|split; [|split; [|split; [|split; [|intros env t; unfold updateQueue; apply bind_ret]]]]].
  all: unfold updateQueue_body, keys, assign_defined, assign_if.
  all: destruct (JS.truthy (uq_state a)) eqn:Hs; destruct (uq_priority a) eqn:Hp;
       cbn [List.app List.map fst JS.lookup String.eqb Ascii.eqb Bool.eqb].
  all: try reflexivity.
  all: try (intros _; reflexivity).
  all: discriminate.
Qed.

Lemma updateQueue_fields_witness :
  JS.JSON_stringify
    (JS.JObj (updateQueue_body (mkUpdateQueueArgs (JS.JStr "q") (JS.JStr "") (JS.JNum 0))))
  = Some ("{" ++ quoted "jobQueue" ++ ":" ++ quoted "q" ++ "," ++ quoted "priority" ++ ":0}")
  /\ JS.lookup "state" (updateQueue_body (mkUpdateQueueArgs (JS.JStr "q") (JS.JStr "") (JS.JNum 0)))
     = JS.JUndefined.
Proof.
  split; [vm_compute; reflexivity|].
  destruct (updateQueue_fields (mkUpdateQueueArgs (JS.JStr "q") (JS.JStr "") (JS.JNum 0)))
    as (_ & _ & _ & _ & H & _).
  exact (H eq_refl).
Defined.

(** X11. [registerDefinition] always sends a truthy type, the caller's or
    [container]; it sends the container properties only when they are
    truthy and leaves the property out otherwise; the reply is returned as
    it is. *)
Theorem registerDefinition_fields (a : RegisterDefinitionArgs) :
  exists type,
    registerDefinition_body a
    = JS.JObj ([ ("jobDefinitionName", rd_definitionName a); ("type", type) ]
               ++ (if JS.truthy (rd_containerProperties a)
                   then [("containerProperties", rd_containerProperties a)]
                   else []))%list
    /\ JS.truthy type = true
    /\ (type = if JS.truthy (rd_type a) then rd_type a else JS.JStr "container")
    /\ (JS.truthy (rd_containerProperties a) = false ->
        JS.get (registerDefinition_body a) "containerProperties" = JS.JUndefined
        /\ List.length (match registerDefinition_body a with
                        | JS.JObj props => props
                        | _ => []
                        end) = 2%nat)
    /\ forall env t,
         registerDefinition env a t
         = request env (getBatchClient env) "POST" "/v1/registerjobdefinition"
             (registerDefinition_body a) t.
Proof.
  exists (JS.or_else (rd_type a) (JS.JStr "container")).
  split; [reflexivity|].
  split; [unfold JS.or_else; destruct (JS.truthy (rd_type a)) eqn:H; [exact H|reflexivity]|].
  split; [reflexivity|].
  split; [|intros env t; unfold registerDefinition; apply bind_ret].
  intros H. unfold registerDefinition_body, spread_if. rewrite H.
  cbn [List.app JS.get JS.lookup String.eqb Ascii.eqb Bool.eqb List.length]. split; reflexivity.
Qed.

(** X12. [listDefinitions] writes a query only for the filters that are
    given and not empty: none gives the bare path, one gives
    [?jobDefinitionName=...] or [?status=...], both give the name first and
    the status behind an ampersand, each value URI-encoded. *)
Theorem listDefinitions_path_cases (name status : string) :
  listDefinitions_path None None = "/v1/jobdefinitions"
  /\ listDefinitions_path (Some "") (Some "") = "/v1/jobdefinitions"
  /\ (name <> "" ->
      listDefinitions_path (Some name) None
      = "/v1/jobdefinitions?jobDefinitionName=" ++ JS.encodeURIComponent name)
  /\ (status <> "" ->
      listDefinitions_path None (Some status)
      = "/v1/jobdefinitions?status=" ++ JS.encodeURIComponent status
      /\ listDefinitions_path (Some "") (Some status)
         = "/v1/jobdefinitions?status=" ++ JS.encodeURIComponent status)
  /\ (name <> "" -> status <> "" ->
      listDefinitions_path (Some name) (Some status)
      = "/v1/jobdefinitions?jobDefinitionName=" ++ JS.encodeURIComponent name
        ++ "&status=" ++ JS.encodeURIComponent status)
  /\ forall env n s t,
       listDefinitions env n s t
       = (d <- request env (getBatchClient env) "GET" (listDefinitions_path n s)
                 JS.JUndefined ;;
          ret (JS.or_else (JS.get d "jobDefinitions") (JS.JArr []))) t.
Proof.
  split; [reflexivity|]. split; [reflexivity|].
  assert (forall x, x <> "" -> String.eqb (str_or (Some x) "") "" = false) as Hne.
  { intros x Hx. cbn [str_or]. apply String.eqb_neq in Hx. rewrite Hx. exact Hx. }
  split.
  { intros Hn. unfold listDefinitions_path. rewrite (Hne name Hn).
    cbn [str_or String.eqb List.app JS.join str]. reflexivity. }
  split.
  { intros Hs. unfold listDefinitions_path. rewrite (Hne status Hs).
    cbn [str_or String.eqb List.app JS.join str]. split; reflexivity. }
  split; [|intros env n s t; reflexivity].
  intros Hn Hs. unfold listDefinitions_path. rewrite (Hne name Hn), (Hne status Hs).
  cbn [List.app JS.join str]. cbn [String.append].
  reflexivity.
Qed.


Lemma registerDefinition_fields_witness :
  JS.JSON_stringify
    (registerDefinition_body (mkRegisterDefinitionArgs (JS.JStr "d") JS.JUndefined JS.JNull))
  = Some ("{" ++ quoted "jobDefinitionName" ++ ":" ++ quoted "d" ++ "," ++ quoted "type" ++ ":"
          ++ quoted "container" ++ "}")
  /\ JS.get (registerDefinition_body (mkRegisterDefinitionArgs (JS.JStr "d") JS.JUndefined JS.JNull))
       "containerProperties" = JS.JUndefined.
Proof.
  split; [vm_compute; reflexivity|].
  destruct (registerDefinition_fields (mkRegisterDefinitionArgs (JS.JStr "d") JS.JUndefined JS.JNull))
    as (type & _ & _ & _ & H & _).
  exact (proj1 (H eq_refl)).
Defined.

Lemma listDefinitions_path_cases_witness :
  listDefinitions_path (Some "my def") (Some "ACTIVE")
  = "/v1/jobdefinitions?jobDefinitionName=my%20def&status=ACTIVE".
Proof.
  destruct (listDefinitions_path_cases "my def" "ACTIVE") as (_ & _ & _ & _ & H & _).
  rewrite (H ltac:(discriminate) ltac:(discriminate)). vm_compute. reflexivity.
Defined.

(** ** Encoded names *)

Lemma all_chars_app (p : ascii -> bool) (a b : string) :
  all_chars p (a ++ b) = all_chars p a && all_chars p b.
Proof. induction a as [|c r IH]; cbn; [reflexivity | now rewrite IH, andb_assoc]. Qed.

Lemma count_char_app (c : ascii) (a b : string) :
  count_char c (a ++ b) = (count_char c a + count_char c b)%nat.
Proof. induction a as [|x r IH]; cbn; [reflexivity | rewrite IH; lia]. Qed.

Lemma escape_is_safe (c : ascii) :
  all_chars uri_safe ("%" ++ JS.upper_hex (Bytes.byte_of_ascii c)) = true.
Proof. destruct c as [[] [] [] [] [] [] [] []]; reflexivity. Qed.

Lemma encodeURIComponent_safe (s : string) :
  all_chars uri_safe (JS.encodeURIComponent s) = true.
Proof.
  induction s as [|c r IH]; [reflexivity|].
  cbn [JS.encodeURIComponent]. rewrite all_chars_app, IH, andb_true_r.
  destruct (JS.unreserved c) eqn:Hc; [|apply escape_is_safe].
  cbn [all_chars]. unfold uri_safe. now rewrite Hc.
Qed.

Lemma count_unsafe (c : ascii) (s : string) :
  uri_safe c = false -> all_chars uri_safe s = true -> count_char c s = 0%nat.
Proof.
  intros Hc. induction s as [|x r IH]; [reflexivity|].
  cbn [all_chars count_char]. intros H. apply andb_true_iff in H. destruct H as [Hx Hr].
  rewrite (IH Hr). destruct (Ascii.eqb_spec x c) as [->|]; [congruence | reflexivity].
Qed.

Lemma count_in_encoded (c : ascii) (s : string) :
  uri_safe c = false -> count_char c (JS.encodeURIComponent s) = 0%nat.
Proof. intros Hc. apply count_unsafe; [exact Hc | apply encodeURIComponent_safe]. Qed.

(** X13. Whatever the name, the paths of [getQueue] and
    [describeDefinitions] hold exactly one question mark and one equals
    sign, and no ampersand, number sign, slash beyond the two of the route,
    or space: an encoded name cannot add a parameter or a fragment.  The
    path of [listDefinitions] holds at most one question mark and at most
    one ampersand. *)
Theorem encoded_paths_well_formed (name : string) (rest : list string)
  (definitionName status : option string) :
  (count_char "?" (getQueue_path name) = 1 /\ count_char "=" (getQueue_path name) = 1
   /\ count_char "&" (getQueue_path name) = 0 /\ count_char "#" (getQueue_path name) = 0
   /\ count_char "/" (getQueue_path name) = 2 /\ count_char " " (getQueue_path name) = 0)%nat
  /\ (count_char "?" (describeDefinitions_path (name :: rest)) = 1
      /\ count_char "=" (describeDefinitions_path (name :: rest)) = 1
      /\ count_char "&" (describeDefinitions_path (name :: rest)) = 0
      /\ count_char "#" (describeDefinitions_path (name :: rest)) = 0
      /\ count_char "/" (describeDefinitions_path (name :: rest)) = 2
      /\ count_char " " (describeDefinitions_path (name :: rest)) = 0)%nat
  /\ (count_char "?" (listDefinitions_path definitionName status) <= 1
      /\ count_char "&" (listDefinitions_path definitionName status) <= 1
      /\ count_char "#" (listDefinitions_path definitionName status) = 0
      /\ count_char "/" (listDefinitions_path definitionName status) = 2)%nat.
Proof.
  split; [|split].
  - unfold getQueue_path. rewrite !count_char_app, !count_in_encoded by reflexivity.
    repeat split.
  - unfold describeDefinitions_path. cbn [List.nth_error str].
    rewrite !count_char_app, !count_in_encoded by reflexivity. repeat split.
  - unfold listDefinitions_path.
    destruct (String.eqb (str_or definitionName "") ""), (String.eqb (str_or status "") "");
      cbn [List.app JS.join];
      rewrite ?count_char_app, ?count_in_encoded by reflexivity;
      cbn; repeat split; lia.
Qed.

Lemma append_inv_head (p a b : string) : p ++ a = p ++ b -> a = b.
Proof. induction p as [|c r IH]; cbn; [trivial | intros [= H]; auto]. Qed.

Lemma percent_decode_plain (c : ascii) (r : string) :
  Ascii.eqb c "%" = false -> percent_decode (String c r) = String c (percent_decode r).
Proof.
  intros Hc. destruct r as [|h [|l r']]; cbn [percent_decode]; try reflexivity.
  destruct (hex_value h), (hex_value l); rewrite ?Hc; reflexivity.
Qed.

Lemma unreserved_not_percent (c : ascii) : JS.unreserved c = true -> Ascii.eqb c "%" = false.
Proof. destruct c as [[] [] [] [] [] [] [] []]; intros H; try reflexivity; discriminate H. Qed.

Lemma percent_decode_escape (c : ascii) (r : string) :
  JS.unreserved c = false ->
  percent_decode (("%" ++ JS.upper_hex (Bytes.byte_of_ascii c)) ++ r)
  = String c (percent_decode r).
Proof.
  destruct c as [[] [] [] [] [] [] [] []]; intros H; try discriminate H; reflexivity.
Qed.

(** Percent-decoding gives back what [encodeURIComponent] was given. *)
Lemma percent_decode_encode (s : string) : percent_decode (JS.encodeURIComponent s) = s.
Proof.
  induction s as [|c r IH]; [reflexivity|].
  cbn [JS.encodeURIComponent].
  destruct (JS.unreserved c) eqn:Hc.
  - cbn [String.append]. rewrite percent_decode_plain by now apply unreserved_not_percent.
    now rewrite IH.
  - rewrite percent_decode_escape by exact Hc. now rewrite IH.
Qed.

(** X14. Different names give different paths: the encoding of a name in
    the paths of [getQueue], [describeDefinitions] and [listDefinitions]
    loses nothing. *)
Theorem encoded_paths_injective (n1 n2 : string) :
  n1 <> n2 ->
  getQueue_path n1 <> getQueue_path n2
  /\ (forall r1 r2, describeDefinitions_path (n1 :: r1) <> describeDefinitions_path (n2 :: r2))
  /\ JS.encodeURIComponent n1 <> JS.encodeURIComponent n2.
Proof.
  intros Hne.
  assert (JS.encodeURIComponent n1 <> JS.encodeURIComponent n2) as Henc.
  { intros H. apply Hne. rewrite <- (percent_decode_encode n1), <- (percent_decode_encode n2).
    now rewrite H. }
  split; [|split; [|exact Henc]].
  - unfold getQueue_path. intros H. now apply append_inv_head in H.
  - intros r1 r2. unfold describeDefinitions_path. cbn [List.nth_error str].
    intros H. now apply append_inv_head in H.
Qed.

Lemma encoded_paths_injective_witness :
  "a b" <> "a%20b"
  /\ getQueue_path "a b" = "/v1/jobqueues?jobQueues=a%20b"
  /\ getQueue_path "a%20b" = "/v1/jobqueues?jobQueues=a%2520b"
  /\ getQueue_path "a b" <> getQueue_path "a%20b".
Proof.
  split; [discriminate|]. split; [reflexivity|]. split; [reflexivity|].
  exact (proj1 (encoded_paths_injective "a b" "a%20b" ltac:(discriminate))).
Defined.


(** ** More on the signer *)

Lemma string_app_assoc (a b c : string) : (a ++ b) ++ c = a ++ b ++ c.
Proof. induction a as [|x r IH]; cbn; [reflexivity | now rewrite IH]. Qed.

Lemma string_app_length (a b : string) :
  String.length (a ++ b) = (String.length a + String.length b)%nat.
Proof. induction a as [|x r IH]; cbn; [reflexivity | now rewrite IH]. Qed.

(** X15. Whatever the request and the instant, the signing key is 32 bytes
    and the signature is 64 lower-case hexadecimal digits, the last 64
    characters of the authorization header value. *)
Theorem signature_shape (a : AuthArgs) (u : URL) (now : Z) :
  let s := signing a u now in
  List.length (signingKey s) = 32%nat
  /\ String.length (signature s) = 64%nat
  /\ all_chars is_lower_hex (signature s) = true
  /\ exists prefix,
       authorization s = prefix ++ signature s
       /\ String.length (authorization s) = (String.length prefix + 64)%nat.
Proof.
  intros s.
  assert (String.length (signature s) = 64%nat) as Hlen.
  { subst s. unfold signing. cbn [signature]. now rewrite hex_length, hmac_length. }
  split; [subst s; unfold signing, getSigningKey, sign; cbn [signingKey]; apply hmac_length|].
  split; [exact Hlen|].
  split; [subst s; unfold signing; cbn [signature]; apply hex_lower, hmac_bytes|].
  exists ("AWS4-HMAC-SHA256 Credential=" ++ str (accessKeyId a) ++ "/" ++ credentialScope s
          ++ ", SignedHeaders=" ++ signedHeaders s ++ ", Signature=").
  assert (authorization s
          = ("AWS4-HMAC-SHA256 Credential=" ++ str (accessKeyId a) ++ "/" ++ credentialScope s
             ++ ", SignedHeaders=" ++ signedHeaders s ++ ", Signature=") ++ signature s) as Ha.
  { rewrite !string_app_assoc. subst s. unfold signing.
    cbn [authorization credentialScope signedHeaders signature]. reflexivity. }
  split; [exact Ha|]. rewrite Ha at 1. rewrite string_app_length, Hlen. reflexivity.
Qed.


Lemma strip_clean (s : string) : forall skip, all_chars clean (JS.strip skip s) = true.
Proof.
  induction s as [|c r IH]; intros skip; [destruct skip; reflexivity|].
  cbn [JS.strip]. destruct skip as [|k]; [|apply IH].
  destruct (Ascii.eqb c ":" || Ascii.eqb c "-") eqn:Hc; [apply IH|].
  destruct (Ascii.eqb c "." && JS.three_digits r); [apply IH|].
  cbn [all_chars]. unfold clean at 1. rewrite Hc. apply IH.
Qed.

Lemma all_chars_substring (p : ascii -> bool) (s : string) :
  forall n m, all_chars p s = true -> all_chars p (String.substring n m s) = true.
Proof.
  induction s as [|c r IH]; intros n m H.
  - destruct n, m; reflexivity.
  - cbn [all_chars] in H. apply andb_true_iff in H. destruct H as [Hc Hr].
    destruct n as [|n]; [destruct m as [|m]; [reflexivity|]|].
    + cbn [String.substring all_chars]. now rewrite Hc, IH.
    + cbn [String.substring]. now apply IH.
Qed.

Lemma substring_length_le (s : string) :
  forall n m, (String.length (String.substring n m s) <= m)%nat.
Proof.
  induction s as [|c r IH]; intros n m.
  - destruct n, m; cbn; lia.
  - destruct n as [|n]; [destruct m as [|m]; [cbn; lia|]|].
    + cbn [String.substring String.length]. specialize (IH 0%nat m). lia.
    + cbn [String.substring]. apply IH.
Qed.

(** X16. At every instant, also one whose year has more than four digits,
    the timestamp the signer makes ends in [Z], has at most 16 characters
    and holds neither a colon nor a dash; the date stamp has at most 8
    characters and holds neither. *)
Theorem amzDate_never_punctuated (a : AuthArgs) (u : URL) (now : Z) :
  let s := signing a u now in
  (exists body, amzDate s = body ++ "Z" /\ (String.length body <= 15)%nat)
  /\ (String.length (amzDate s) <= 16)%nat
  /\ all_chars clean (amzDate s) = true
  /\ (String.length (dateStamp s) <= 8)%nat
  /\ all_chars clean (dateStamp s) = true.
Proof.
  intros s.
  assert (all_chars clean (amzDate s) = true) as Hc.
  { subst s. unfold signing. cbn [amzDate]. rewrite all_chars_app. unfold JS.slice.
    rewrite all_chars_substring by apply strip_clean. reflexivity. }
  assert (exists body, amzDate s = body ++ "Z" /\ (String.length body <= 15)%nat) as Hz.
  { eexists. split; [subst s; unfold signing; cbn [amzDate]; reflexivity|].
    unfold JS.slice. apply (substring_length_le _ 0%nat 15%nat). }
  split; [exact Hz|].
  split.
  { destruct Hz as (body & -> & Hb). rewrite string_app_length. cbn [String.length]. lia. }
  split; [exact Hc|].
  split.
  { subst s. unfold signing. cbn [dateStamp]. unfold JS.slice at 1. apply substring_length_le. }
  subst s. unfold signing in *. cbn [dateStamp amzDate] in *. unfold JS.slice at 1.
  now apply all_chars_substring.
Qed.

(** X17. The client does not check its credentials: when neither the
    access key id nor the secret is configured, a call of [request] whose
    URL parses signs all the same, with the text [undefined] for both, and
    calls axios with the header so made. *)
Theorem unconfigured_client_signs (env : Env) (method path : string) (data : JS.value)
  (t : nat) (u : URL) :
  getConfig env "accessKeyId" = None ->
  getConfig env "secretAccessKey" = None ->
  parseURL env (c_baseURL (getBatchClient env) ++ path) = Some u ->
  exists scope sig timestamp,
    request env (getBatchClient env) method path data t
    = match axios env
              (mkAxiosRequest method (c_baseURL (getBatchClient env) ++ path)
                 (JS.or_else (request_data data) JS.JUndefined)
                 [ ("Authorization",
                    "AWS4-HMAC-SHA256 Credential=undefined/" ++ scope
                    ++ ", SignedHeaders=host;x-amz-date, Signature=" ++ sig);
                   ("X-Amz-Date", timestamp);
                   ("Content-Type", "application/json");
                   ("Accept", "application/json") ]) with
      | Resolved d => (Returned d, S t)
      | Failed error => handleApiError error (S t)
      end
    /\ exists dateStamp stringToSign,
         scope = dateStamp ++ "/" ++ c_region (getBatchClient env) ++ "/batch/aws4_request"
         /\ sig = Bytes.hex
                    (HMAC.hmac
                       (spec_derive "undefined" dateStamp (c_region (getBatchClient env)) "batch")
                       (Bytes.of_string stringToSign)).
Proof.
  intros Hid Hsecret Hu.
  set (c := getBatchClient env) in *.
  assert (c_accessKeyId c = None) as Hid' by exact Hid.
  assert (c_secretAccessKey c = None) as Hsecret' by exact Hsecret.
  pose proof (request_calls_axios env c method path data t u Hu) as Hrun.
  cbv zeta in Hrun.
  set (s := signing (request_args c method path data) u (clock env t)) in *.
  assert (authorization s
          = "AWS4-HMAC-SHA256 Credential=undefined/" ++ credentialScope s
            ++ ", SignedHeaders=host;x-amz-date, Signature=" ++ signature s) as Hauth.
  { subst s. unfold signing. cbn [authorization credentialScope signature].
    unfold request_args at 1. cbn [accessKeyId]. rewrite Hid'. cbn [str String.append].
    reflexivity. }
  exists (credentialScope s), (signature s), (amzDate s).
  split; [rewrite <- Hauth; exact Hrun|].
  exists (dateStamp s), (stringToSign s).
  split.
  { subst s. unfold signing. cbn [credentialScope dateStamp]. unfold request_args.
    cbn [region service]. cbn [String.append]. reflexivity. }
  subst s. unfold signing, getSigningKey, sign, spec_derive.
  cbn [signature dateStamp stringToSign]. unfold request_args at 1 2 3.
  cbn [secretAccessKey region service]. rewrite Hsecret'. reflexivity.
Qed.

Lemma unconfigured_client_signs_witness :
  (getConfig (mirror_env (fun _ => None)) "accessKeyId" = None
   /\ getConfig (mirror_env (fun _ => None)) "secretAccessKey" = None)
  /\ (exists scope sig timestamp,
        request (mirror_env (fun _ => None)) (getBatchClient (mirror_env (fun _ => None)))
          "GET" "/v1/jobqueues" JS.JUndefined 0%nat
        = match axios (mirror_env (fun _ => None))
                  (mkAxiosRequest "GET"
                     (c_baseURL (getBatchClient (mirror_env (fun _ => None)))
                      ++ "/v1/jobqueues")
                     JS.JUndefined
                     [ ("Authorization",
                        "AWS4-HMAC-SHA256 Credential=undefined/" ++ scope
                        ++ ", SignedHeaders=host;x-amz-date, Signature=" ++ sig);
                       ("X-Amz-Date", timestamp);
                       ("Content-Type", "application/json");
                       ("Accept", "application/json") ]) with
          | Resolved d => (Returned d, 1%nat)
          | Failed error => handleApiError error 1%nat
          end)
  /\ JS.get
       (JS.get
          (match fst (request (mirror_env (fun _ => None))
                        (getBatchClient (mirror_env (fun _ => None)))
                        "GET" "/v1/jobqueues" JS.JUndefined 0%nat) with
           | Returned d => d
           | Thrown _ => JS.JUndefined
           end) "headers") "Authorization"
     = JS.JStr ("AWS4-HMAC-SHA256 "
                ++ "Credential=undefined/20150830/us-east-1/batch/aws4_request, "
                ++ "SignedHeaders=host;x-amz-date, "
                ++ "Signature=000f5c69c0466a2c70d6a30d7f6c211a3c218f598b2826c642b8893be71be319").
Proof.
  split; [split; reflexivity|].
  split; [|vm_compute; reflexivity].
  destruct (unconfigured_client_signs (mirror_env (fun _ => None))
              "GET" "/v1/jobqueues" JS.JUndefined 0%nat
              (mkURL "batch.us-east-1.amazonaws.com" "/v1/jobqueues" None)
              eq_refl eq_refl eq_refl)
    as (scope & sig & timestamp & Hrun & _).
  exists scope, sig, timestamp. exact Hrun.
Defined.

(** ** The command line *)

Lemma config_list_forgets (chalk : Chalk) (all : list (string * JS.value)) :
  config_list chalk (forget_secret all) = config_list chalk all.
Proof.
  unfold config_list. f_equal.
  destruct all as [|kv rest]; [reflexivity|].
  unfold forget_secret. cbn [List.map]. f_equal.
  - destruct kv as [k v]. cbn [fst].
    destruct (String.eqb k "secretAccessKey") eqn:Hk; cbv beta iota; rewrite ?Hk; reflexivity.
  - rewrite List.map_map. apply List.map_ext. intros [k v]. cbn [fst].
    destruct (String.eqb k "secretAccessKey") eqn:Hk; cbv beta iota; rewrite ?Hk; reflexivity.
Qed.

(** X18. [config list] does not show the secret: two configurations that
    differ only in the value stored under [secretAccessKey] print the same
    lines, and the line of that key is eight asterisks whatever is stored. *)
Theorem config_list_hides_secret (chalk : Chalk) (all1 all2 : list (string * JS.value)) :
  forget_secret all1 = forget_secret all2 ->
  config_list chalk all1 = config_list chalk all2
  /\ forall v, In ("secretAccessKey", v) all1 ->
       In ("secretAccessKey: " ++ green chalk "********") (config_list chalk all1).
Proof.
  intros H. split.
  - rewrite <- (config_list_forgets chalk all1), <- (config_list_forgets chalk all2).
    now rewrite H.
  - intros v Hin. unfold config_list. right.
    destruct all1 as [|kv rest]; [contradiction|].
    apply (List.in_map (fun kv : string * JS.value =>
                          let '(k, v) := kv in
                          k ++ ": " ++ (if String.eqb k "secretAccessKey"
                                        then green chalk (repeat_string "*" 8)
                                        else cyan chalk (JS.to_string v)))) in Hin.
    exact Hin.
Qed.


Lemma config_list_hides_secret_witness :
  forget_secret [("region", JS.JStr "eu-west-1"); ("secretAccessKey", JS.JStr "first")]
  = forget_secret [("region", JS.JStr "eu-west-1"); ("secretAccessKey", JS.JStr "second")]
  /\ config_list marking_chalk
       [("region", JS.JStr "eu-west-1"); ("secretAccessKey", JS.JStr "first")]
     = config_list marking_chalk
         [("region", JS.JStr "eu-west-1"); ("secretAccessKey", JS.JStr "second")].
Proof.
  split; [reflexivity|].
  exact (proj1 (config_list_hides_secret marking_chalk
                  [("region", JS.JStr "eu-west-1"); ("secretAccessKey", JS.JStr "first")]
                  [("region", JS.JStr "eu-west-1"); ("secretAccessKey", JS.JStr "second")]
                  eq_refl)).
Defined.

(** ** The table *)

Section TableFacts.

Variable char : Type.
Variable of_ascii : ascii -> char.
Variable dash : char.
Variable any : Type.
Variable member : JS.value -> string -> any.
Variable nullish : any -> bool.
Variable text_of : any -> list char.
Variables t_bold t_cyan t_dim t_yellow : list char -> list char.

Lemma padEnd_length (n : nat) (s : list char) :
  List.length (padEnd of_ascii n s) = Nat.max n (List.length s).
Proof. unfold padEnd. rewrite List.length_app, List.repeat_length. lia. Qed.

Lemma join2_length (xs ys : list (list char)) :
  Forall2 (fun x y => List.length x = List.length y) xs ys ->
  List.length (join2 of_ascii xs) = List.length (join2 of_ascii ys).
Proof.
  induction 1 as [|x y xs ys Hxy Hrest IH]; [reflexivity|].
  destruct Hrest as [|x' y' xs' ys' Hx' Hrest'].
  - exact Hxy.
  - change (List.length (x ++ of_ascii " " :: of_ascii " " :: join2 of_ascii (x' :: xs'))
            = List.length (y ++ of_ascii " " :: of_ascii " " :: join2 of_ascii (y' :: ys'))).
    rewrite !List.length_app. cbn [List.length]. rewrite IH, Hxy. reflexivity.
Qed.

Lemma cell_defined (col : Column char any) (row : JS.value) :
  is_row row -> exists val, cell member nullish text_of col row = Some val.
Proof.
  intros [Hn Hu]. unfold cell, row_get.
  destruct row; try congruence; destruct (col_format col); eexists; reflexivity.
Qed.

Lemma cell_of_no_row (col : Column char any) (row : JS.value) :
  row = JS.JNull \/ row = JS.JUndefined -> cell member nullish text_of col row = None.
Proof. intros [-> | ->]; reflexivity. Qed.

(** What an assignment to [widths] changes. *)
Lemma set_width_other (key k : string) (w : nat) (widths : Widths) :
  k <> key -> set_width key w widths k = widths k.
Proof.
  intros Hk. unfold set_width. destruct (String.eqb key "__proto__"); [reflexivity|].
  destruct (String.eqb_spec k key); [contradiction | reflexivity].
Qed.

Lemma set_width_same (key : string) (w : nat) (widths : Widths) :
  key <> "__proto__" -> set_width key w widths key = Some w.
Proof.
  intros Hk. unfold set_width. apply String.eqb_neq in Hk. rewrite Hk.
  now rewrite String.eqb_refl.
Qed.

Lemma set_width_proto (key : string) (w : nat) (widths : Widths) :
  set_width key w widths "__proto__" = widths "__proto__".
Proof.
  unfold set_width. destruct (String.eqb_spec key "__proto__") as [|Hk]; [reflexivity|].
  destruct (String.eqb_spec "__proto__" key); [congruence | reflexivity].
Qed.

Lemma widen_other (key k : string) (val : list char) (widths : Widths) :
  k <> key -> widen key val widths k = widths k.
Proof.
  intros Hk. unfold widen. destruct (widths key) as [w|]; [|reflexivity].
  destruct (Nat.ltb w (List.length val)); [now apply set_width_other | reflexivity].
Qed.

Lemma widen_proto (key : string) (val : list char) (widths : Widths) :
  widen key val widths "__proto__" = widths "__proto__".
Proof.
  unfold widen. destruct (widths key) as [w|]; [|reflexivity].
  destruct (Nat.ltb w (List.length val)); [apply set_width_proto | reflexivity].
Qed.

Lemma widen_same (key : string) (val : list char) (widths : Widths) (w : nat) :
  key <> "__proto__" -> widths key = Some w ->
  widen key val widths key = Some (Nat.max w (List.length val)).
Proof.
  intros Hk Hw. unfold widen. rewrite Hw.
  destruct (Nat.ltb_spec w (List.length val)).
  - rewrite set_width_same by exact Hk. f_equal. lia.
  - rewrite Hw. f_equal. lia.
Qed.

Lemma cap_other (key k : string) (widths : Widths) :
  k <> key -> cap key widths k = widths k.
Proof.
  intros Hk. unfold cap. destruct (widths key); [now apply set_width_other | reflexivity].
Qed.

Lemma cap_proto (key : string) (widths : Widths) :
  cap key widths "__proto__" = widths "__proto__".
Proof. unfold cap. destruct (widths key); [apply set_width_proto | reflexivity]. Qed.

Lemma cap_same (key : string) (widths : Widths) (w : nat) :
  key <> "__proto__" -> widths key = Some w -> cap key widths key = Some (Nat.min w 40).
Proof. intros Hk Hw. unfold cap. rewrite Hw. now apply set_width_same. Qed.

(** The loop over the rows of one column, from any state of [widths]. *)
Lemma widen_rows (col : Column char any) (rows : list JS.value) :
  Forall is_row rows ->
  forall widths0,
  exists widths,
    List.fold_left
      (fun acc row =>
         match acc, cell member nullish text_of col row with
         | Some widths, Some val => Some (widen (col_key col) val widths)
         | _, _ => None
         end) rows (Some widths0) = Some widths
    /\ (forall k, k <> col_key col -> widths k = widths0 k)
    /\ widths "__proto__" = widths0 "__proto__"
    /\ forall w0, col_key col <> "__proto__" -> widths0 (col_key col) = Some w0 ->
         exists w,
           widths (col_key col) = Some w
           /\ (w0 <= w)%nat
           /\ forall row val, In row rows -> cell member nullish text_of col row = Some val ->
                (List.length val <= w)%nat.
Proof.
  induction 1 as [|row rows Hrow _ IH]; intros widths0.
  - exists widths0. split; [reflexivity|]. split; [reflexivity|]. split; [reflexivity|].
    intros w0 _ Hw0. exists w0. split; [exact Hw0|]. split; [lia | contradiction].
  - destruct (cell_defined col row Hrow) as [val Hval].
    cbn [List.fold_left]. rewrite Hval.
    destruct (IH (widen (col_key col) val widths0)) as (widths & Hfold & Hother & Hproto & Hsame).
    exists widths. split; [exact Hfold|].
    split; [intros k Hk; rewrite (Hother k Hk); now apply widen_other|].
    split; [rewrite Hproto; apply widen_proto|].
    intros w0 Hkey Hw0.
    destruct (Hsame _ Hkey (widen_same _ val _ _ Hkey Hw0)) as (w & Hw & Hle & Hall).
    exists w. split; [exact Hw|]. split; [lia|].
    intros r v [<- | Hin] Hv; [|now apply (Hall r)].
    rewrite Hval in Hv. injection Hv as <-. lia.
Qed.

Lemma widen_rows_fails (col : Column char any) (rows : list JS.value) :
  forall acc,
  (acc = None \/ exists row, In row rows /\ cell member nullish text_of col row = None) ->
  List.fold_left
    (fun acc row =>
       match acc, cell member nullish text_of col row with
       | Some widths, Some val => Some (widen (col_key col) val widths)
       | _, _ => None
       end) rows acc = None.
Proof.
  induction rows as [|row rows IH]; intros acc H.
  - destruct H as [-> | (row & [] & _)]. reflexivity.
  - cbn [List.fold_left]. apply IH.
    destruct H as [-> | (r & [<- | Hin] & Hr)].
    + left. reflexivity.
    + left. rewrite Hr. now destruct acc.
    + right. now exists r.
Qed.

(** One column measured: its own entry is written, unless its key is
    [__proto__], and no other entry changes. *)
Lemma measure_spec (col : Column char any) (rows : list JS.value) :
  Forall is_row rows ->
  forall widths0,
  exists widths,
    measure member nullish text_of col rows widths0 = Some widths
    /\ (forall k, k <> col_key col -> widths k = widths0 k)
    /\ widths "__proto__" = widths0 "__proto__"
    /\ (col_key col <> "__proto__" ->
        exists w,
          widths (col_key col) = Some w
          /\ (w <= 40)%nat
          /\ (Nat.min (List.length (col_label col)) 40 <= w)%nat
          /\ forall row val, In row rows -> cell member nullish text_of col row = Some val ->
               (Nat.min (List.length val) 40 <= w)%nat).
Proof.
  intros Hrows widths0. unfold measure.
  destruct (widen_rows col rows Hrows
              (set_width (col_key col) (List.length (col_label col)) widths0))
    as (widths & -> & Hother & Hproto & Hsame).
  exists (cap (col_key col) widths). split; [reflexivity|].
  split.
  { intros k Hk. rewrite cap_other, Hother by exact Hk. now apply set_width_other. }
  split; [rewrite cap_proto, Hproto; apply set_width_proto|].
  intros Hkey.
  destruct (Hsame _ Hkey (set_width_same _ _ _ Hkey)) as (w & Hw & Hle & Hall).
  exists (Nat.min w 40). split; [now apply cap_same|]. split; [lia|]. split; [lia|].
  intros row val Hin Hval. specialize (Hall row val Hin Hval). lia.
Qed.

(** The loop over the columns, from any state of [widths]. *)
Lemma compute_widths_from (rows : list JS.value) (columns : list (Column char any)) :
  Forall is_row rows ->
  forall widths0,
  exists widths,
    List.fold_left
      (fun acc col =>
         match acc with
         | Some widths => measure member nullish text_of col rows widths
         | None => None
         end) columns (Some widths0) = Some widths
    /\ (forall k, ~ In k (List.map col_key columns) -> widths k = widths0 k)
    /\ widths "__proto__" = widths0 "__proto__"
    /\ (NoDup (List.map col_key columns) ->
        forall col, In col columns -> col_key col <> "__proto__" ->
          exists w,
            widths (col_key col) = Some w
            /\ (w <= 40)%nat
            /\ (Nat.min (List.length (col_label col)) 40 <= w)%nat
            /\ forall row val, In row rows -> cell member nullish text_of col row = Some val ->
                 (Nat.min (List.length val) 40 <= w)%nat).
Proof.
  intros Hrows. induction columns as [|col columns IH]; intros widths0.
  - exists widths0. split; [reflexivity|]. split; [reflexivity|].
    split; [reflexivity | contradiction].
  - destruct (measure_spec col rows Hrows widths0) as (widths1 & Hm & Hother1 & Hproto1 & Hown1).
    cbn [List.fold_left]. rewrite Hm.
    destruct (IH widths1) as (widths & Hfold & Hout & Hproto & Hall).
    exists widths. split; [exact Hfold|]. split; [|split].
    + intros k Hk. cbn [List.map] in Hk.
      rewrite Hout by (intros Hin; apply Hk; now right).
      apply Hother1. intros ->. apply Hk. now left.
    + now rewrite Hproto.
    + intros Hnd c [<- | Hin] Hkey.
      * cbn [List.map] in Hnd. inversion Hnd as [|? ? Hfresh _]; subst.
        rewrite (Hout _ Hfresh). now apply Hown1.
      * cbn [List.map] in Hnd. inversion Hnd; subst. now apply Hall.
Qed.

Lemma compute_widths_stuck (rows : list JS.value) (columns : list (Column char any)) :
  List.fold_left
    (fun acc col =>
       match acc with
       | Some widths => measure member nullish text_of col rows widths
       | None => None
       end) columns None = None.
Proof. induction columns as [|col columns IH]; [reflexivity | exact IH]. Qed.

Lemma line_length (widths : Widths) (columns : list (Column char any)) (row : JS.value) :
  Forall (fun col => (List.length (col_label col) <= width_at widths (col_key col))%nat)
         columns ->
  List.length (line of_ascii member nullish text_of widths columns row)
  = List.length (header of_ascii widths columns).
Proof.
  intros Hfit. unfold line, header. apply join2_length.
  induction Hfit as [|col columns Hcol _ IH]; [constructor|].
  cbn [List.map]. constructor; [|exact IH].
  rewrite !padEnd_length, List.length_firstn. lia.
Qed.

Lemma join2_map_le (A : Type) (f g : A -> list char) (l : list A) :
  Forall (fun a => (List.length (f a) <= List.length (g a))%nat) l ->
  (List.length (join2 of_ascii (List.map f l))
   <= List.length (join2 of_ascii (List.map g l)))%nat.
Proof.
  induction 1 as [|a l Ha Hl IH]; [apply Nat.le_refl|].
  destruct l as [|b l]; [exact Ha|].
  change (List.length (f a ++ of_ascii " " :: of_ascii " " :: join2 of_ascii (List.map f (b :: l)))
          <= List.length (g a ++ of_ascii " " :: of_ascii " "
                            :: join2 of_ascii (List.map g (b :: l))))%nat.
  rewrite !List.length_app. cbn [List.length]. lia.
Qed.

Lemma join2_map_lt (A : Type) (f g : A -> list char) (l : list A) :
  Forall (fun a => (List.length (f a) <= List.length (g a))%nat) l ->
  Exists (fun a => (List.length (f a) < List.length (g a))%nat) l ->
  (List.length (join2 of_ascii (List.map f l))
   < List.length (join2 of_ascii (List.map g l)))%nat.
Proof.
  induction 1 as [|a l Ha Hl IH]; intros Hex; [inversion Hex|].
  pose proof (join2_map_le A f g l Hl) as Hle.
  destruct l as [|b l].
  - inversion Hex as [? ? Hhere | ? ? Hthere]; subst; [exact Hhere | inversion Hthere].
  - change (List.length (f a ++ of_ascii " " :: of_ascii " "
                           :: join2 of_ascii (List.map f (b :: l)))
            < List.length (g a ++ of_ascii " " :: of_ascii " "
                             :: join2 of_ascii (List.map g (b :: l))))%nat.
    rewrite !List.length_app. cbn [List.length].
    inversion Hex as [? ? Hhere | ? ? Hthere]; subst.
    + lia.
    + specialize (IH Hthere). lia.
Qed.

End TableFacts.

(** X19.  [printTable] on a non-empty array of rows that are neither
    [null] nor [undefined], with columns of distinct keys: it prints the
    header, a rule as long as the header, one line for each row and the
    count, and returns.  For a key other than [__proto__] the width of the
    column is at most 40, and up to 40 it holds the label and every cell of
    the column; when moreover no label is longer than 40, every line is as
    long as the header, so the columns stand under their labels.  Under the
    key [__proto__] no width is stored: such a column prints its label in
    the header and nothing in the lines. *)
Theorem printTable_aligned (char : Type) (of_ascii : ascii -> char) (dash : char)
    (any : Type) (member : JS.value -> string -> any) (nullish : any -> bool)
    (text_of : any -> list char) (t_bold t_cyan t_dim t_yellow : list char -> list char)
    (rows : list JS.value) (columns : list (Column char any))
    (Hrows : rows <> [])
    (Hobjects : Forall is_row rows)
    (Hkeys : NoDup (List.map col_key columns)) :
  exists widths,
    printTable of_ascii dash member nullish text_of t_bold t_cyan t_dim t_yellow
      (JS.JArr rows) columns
    = ((t_bold (t_cyan (header of_ascii widths columns))
        :: t_dim (List.repeat dash (List.length (header of_ascii widths columns)))
        :: List.map (line of_ascii member nullish text_of widths columns) rows
        ++ [t_dim (lit of_ascii
                     (JS.nl ++ JS.decimal (Z.of_nat (List.length rows)) ++ " result(s)"))])%list,
       true)
    /\ (forall col, In col columns -> col_key col <> "__proto__" ->
          exists w,
            widths (col_key col) = Some w
            /\ (w <= 40)%nat
            /\ (Nat.min (List.length (col_label col)) 40 <= w)%nat
            /\ forall row val, In row rows -> cell member nullish text_of col row = Some val ->
                 (Nat.min (List.length val) 40 <= w)%nat)
    /\ (Forall (fun col => (List.length (col_label col) <= 40)%nat
                           /\ col_key col <> "__proto__") columns ->
        forall row,
          List.length (line of_ascii member nullish text_of widths columns row)
          = List.length (header of_ascii widths columns))
    /\ widths "__proto__" = None
    /\ (forall col row, col_key col = "__proto__" ->
          line of_ascii member nullish text_of widths [col] row = []
          /\ header of_ascii widths [col] = col_label col).
Proof.
  destruct (compute_widths_from char any member nullish text_of rows columns Hobjects
              (fun _ => None))
    as (widths & Hwidths & _ & Hproto & Hown).
  specialize (Hown Hkeys). cbv beta in Hproto.
  exists widths. split; [|split; [exact Hown|split; [|split; [exact Hproto|]]]].
  - assert (compute_widths member nullish text_of columns rows = Some widths) as Hc
      by exact Hwidths.
    clear Hwidths. unfold printTable.
    destruct rows as [|row rows']; [congruence|].
    cbn [JS.truthy negb]. rewrite Hc. reflexivity.
  - intros Hlabels row. apply line_length.
    apply Forall_forall. intros col Hin.
    pose proof (proj1 (Forall_forall _ _) Hlabels col Hin) as [Hshort Hkey]. cbv beta in Hshort.
    destruct (Hown col Hin Hkey) as (w & Hw & _ & Hlabel & _).
    unfold width_at. rewrite Hw. lia.
  - intros col row Hkey. unfold line, header, width_at. cbn [List.map join2].
    rewrite Hkey, Hproto. unfold padEnd. cbn [List.firstn List.length Nat.sub List.repeat].
    split; [reflexivity | apply List.app_nil_r].
Qed.

Lemma printTable_aligned_witness :
  (example_rows <> []
   /\ Forall is_row example_rows
   /\ NoDup (List.map col_key example_columns)
   /\ Forall (fun col : Column ascii JS.value =>
               (List.length (col_label col) <= 40)%nat /\ col_key col <> "__proto__")
            example_columns)
  /\ fst (printTable (fun c => c) "-"%char JS.get is_nullish ascii_text
            (fun s => s) (fun s => s) (fun s => s) (fun s => s)
            (JS.JArr example_rows) example_columns)
     = List.map list_ascii_of_string
         [ "Job ID               Name     Status ";
           "-------------------------------------";
           "0123456789abcdef...  nightly  RUNNING";
           "42...                                ";
           String (Ascii.ascii_of_nat 10) "2 result(s)" ]
  /\ exists widths,
       (forall col, In col example_columns ->
          exists w, widths (col_key col) = Some w /\ (w <= 40)%nat)
       /\ forall row,
            List.length (line (fun c => c) JS.get is_nullish ascii_text
                           widths example_columns row)
            = List.length (header (fun c => c) widths example_columns).
Proof.
  assert (H1 : example_rows <> []) by discriminate.
  assert (H2 : Forall is_row example_rows)
    by (repeat (apply Forall_cons; [split; discriminate|]); apply Forall_nil).
  assert (H3 : NoDup (List.map col_key example_columns)).
  { cbn. repeat (apply NoDup_cons; [cbn; intuition discriminate|]). apply NoDup_nil. }
  assert (H4 : Forall (fun col : Column ascii JS.value =>
                         (List.length (col_label col) <= 40)%nat
                         /\ col_key col <> "__proto__") example_columns)
    by (repeat (apply Forall_cons; [split; [cbn; lia | discriminate]|]); apply Forall_nil).
  split; [repeat (split; [assumption|]); assumption|].
  split; [vm_compute; reflexivity|].
  destruct (printTable_aligned ascii (fun c => c) "-"%char JS.value JS.get is_nullish ascii_text
              (fun s => s) (fun s => s) (fun s => s) (fun s => s)
              example_rows example_columns H1 H2 H3) as (widths & _ & Hw & Hlines & _).
  exists widths. split.
  - intros col Hin.
    destruct (Hw col Hin (proj2 (proj1 (Forall_forall _ _) H4 col Hin))) as (w & Hw' & Hcap & _).
    exists w. split; assumption.
  - exact (Hlines H4).
Defined.

(** A column keyed [__proto__]: the header shows its label, the lines
    show nothing under it. *)
Example printTable_proto_column :
  fst (printTable (fun c => c) "-"%char JS.get is_nullish ascii_text
         (fun s => s) (fun s => s) (fun s => s) (fun s => s)
         (JS.JArr example_rows)
         [ mkColumn "status" (list_ascii_of_string "Status") None;
           mkColumn "__proto__" (list_ascii_of_string "Proto") None ])
  = List.map list_ascii_of_string
      [ "Status   Proto";
        "--------------";
        "RUNNING  ";
        "         ";
        String (Ascii.ascii_of_nat 10) "2 result(s)" ].
Proof. vm_compute. reflexivity. Qed.

(** X20.  A row that is [null] or [undefined]: with at least one column,
    [printTable] throws a [TypeError] while it measures the first column,
    before it has printed anything; the header is not printed either. *)
Theorem printTable_null_row (char : Type) (of_ascii : ascii -> char) (dash : char)
    (any : Type) (member : JS.value -> string -> any) (nullish : any -> bool)
    (text_of : any -> list char) (t_bold t_cyan t_dim t_yellow : list char -> list char)
    (rows : list JS.value) (columns : list (Column char any)) (row : JS.value)
    (Hin : In row rows)
    (Hrow : row = JS.JNull \/ row = JS.JUndefined)
    (Hcolumns : columns <> []) :
  printTable of_ascii dash member nullish text_of t_bold t_cyan t_dim t_yellow
    (JS.JArr rows) columns
  = ([], false).
Proof.
  unfold printTable. fold (compute_widths member nullish text_of columns rows).
  destruct rows as [|r rows']; [contradiction|].
  cbn [JS.truthy negb].
  replace (compute_widths member nullish text_of columns (r :: rows')) with (@None Widths);
    [reflexivity|].
  destruct columns as [|col columns']; [congruence|].
  unfold compute_widths. cbn [List.fold_left].
  replace (measure member nullish text_of col (r :: rows') (fun _ => None)) with (@None Widths).
  - symmetry. apply compute_widths_stuck.
  - unfold measure. rewrite widen_rows_fails; [reflexivity|].
    right. exists row. split; [exact Hin | now apply cell_of_no_row].
Qed.

Lemma printTable_null_row_witness :
  printTable (fun c => c) "-"%char JS.get is_nullish ascii_text
    (fun s => s) (fun s => s) (fun s => s) (fun s => s)
    (JS.JArr (example_rows ++ [JS.JNull])) example_columns
  = ([], false).
Proof.
  apply (printTable_null_row ascii (fun c => c) "-"%char JS.value JS.get is_nullish ascii_text
           (fun s => s) (fun s => s) (fun s => s) (fun s => s)
           (example_rows ++ [JS.JNull])%list example_columns JS.JNull).
  - apply List.in_or_app. right. left. reflexivity.
  - left. reflexivity.
  - discriminate.
Defined.

(** X21.  A label longer than 40 code units: the width of its column stops
    at 40 and the cells are cut to it, but the label is padded, never cut,
    so the header is longer than every line and the columns to its right
    no longer stand under their labels. *)
Theorem printTable_long_label (char : Type) (of_ascii : ascii -> char)
    (any : Type) (member : JS.value -> string -> any) (nullish : any -> bool)
    (text_of : any -> list char)
    (rows : list JS.value) (columns : list (Column char any))
    (Hobjects : Forall is_row rows)
    (Hkeys : NoDup (List.map col_key columns))
    (Hlong : Exists (fun col => (40 < List.length (col_label col))%nat) columns) :
  exists widths,
    compute_widths member nullish text_of columns rows = Some widths
    /\ forall row,
         (List.length (line of_ascii member nullish text_of widths columns row)
          < List.length (header of_ascii widths columns))%nat.
Proof.
  destruct (compute_widths_from char any member nullish text_of rows columns Hobjects
              (fun _ => None))
    as (widths & Hwidths & _ & Hproto & Hown).
  specialize (Hown Hkeys). cbv beta in Hproto.
  assert (Hcap : forall col, In col columns -> (width_at widths (col_key col) <= 40)%nat).
  { intros col Hin. unfold width_at.
    destruct (String.eqb_spec (col_key col) "__proto__") as [-> | Hkey].
    - rewrite Hproto. lia.
    - destruct (Hown col Hin Hkey) as (w & -> & Hcap & _). exact Hcap. }
  exists widths. split; [exact Hwidths|].
  intros row. unfold line, header. apply join2_map_lt.
  - apply Forall_forall. intros col _.
    rewrite !padEnd_length, List.length_firstn. lia.
  - apply Exists_exists. apply Exists_exists in Hlong. destruct Hlong as (col & Hin & Hlen).
    exists col. split; [exact Hin|].
    rewrite !padEnd_length, List.length_firstn. specialize (Hcap col Hin). lia.
Qed.

Lemma printTable_long_label_witness :
  Exists (fun col : Column ascii JS.value => (40 < List.length (col_label col))%nat)
         (long_column :: example_columns)
  /\ exists widths,
       compute_widths JS.get is_nullish ascii_text
         (long_column :: example_columns) example_rows = Some widths
       /\ forall row,
            (List.length (line (fun c => c) JS.get is_nullish ascii_text
                            widths (long_column :: example_columns) row)
             < List.length (header (fun c => c) widths (long_column :: example_columns)))%nat.
Proof.
  assert (Hlong : Exists (fun col : Column ascii JS.value =>
                            (40 < List.length (col_label col))%nat)
                    (long_column :: example_columns))
    by (apply Exists_cons_hd; cbn; lia).
  split; [exact Hlong|].
  apply (printTable_long_label ascii (fun c => c) JS.value JS.get is_nullish ascii_text
           example_rows (long_column :: example_columns)).
  - repeat (apply Forall_cons; [split; discriminate|]); apply Forall_nil.
  - cbn. repeat (apply NoDup_cons; [cbn; intuition discriminate|]). apply NoDup_nil.
  - exact Hlong.
Defined.
